(** * Product Inventory API: authorization and inventory rules

    A shallow embedding of the Express/Mongoose back end:
    - [models/User.js] and [models/Product.js] (schemas, setters, validators),
    - [middleware/auth.js] (bearer-token gate),
    - [middleware/security.js] (express-validator chains of
      [commonValidations]; the source file [unnamed/part_004]),
    - [controllers/auth.js] ([register], [login]),
    - [controllers/product.js] (the seven product handlers; the source file
      [unnamed/part_003]),
    - [routes/auth.js] (the last lines of [unnamed/part_005]) and
      [routes/product.js] (validators chained before handlers).

    Conventions of the embedding.
    - A MongoDB collection is the list of its documents in insertion order.
      A lookup by [_id] or by one unique field returns the first match of
      a scan in that order. Where a query can match several documents and
      the source fixes no order ([register]'s [$or]), the match returned is
      the first in an order that the request draws from its environment.
    - JavaScript numbers are IEEE 754 binary64 values: the primitive type
      [float], whose operations are the double-precision ones, with NaN,
      the infinities and the signed zeros.
    - A request body is modelled after JSON parsing, for the bodies that
      carry schema paths only, each with a value of the JSON type the
      schema declares for it (a string, a number, a boolean, an ObjectId):
      a field is [Some v] for such a value and [None] when the key is
      absent. Other bodies are outside the model: values of another type,
      which Mongoose would cast or refuse (the string "true" for a boolean),
      and other keys (an [_id], timestamps, update operators such as [$set]
      or [$inc]). No term of the body types stands for such a request, and
      the theorems that quantify over requests speak of the modelled ones.
    - Library code (jsonwebtoken, bcryptjs, validator.js, the regular
      expression engine of MongoDB) is not part of the repository: it is a
      parameter, the record [Platform].
    - A handler returns the next store and an [Outcome]: the response it
      sent, the error it threw into [catchAsync], or [Next] when a middleware
      passed control on.
    - The rate limiter, CORS and the security headers stand in front of the
      routes and never reach the store; they are left out. *)

From Stdlib Require Import List String Ascii Bool ZArith NArith QArith Floats Lia
  Permutation.
Close Scope Q_scope.
Import ListNotations.

Set Warnings "-inexact-float".

Local Open Scope string_scope.
Local Open Scope list_scope.

(** ** JavaScript built-ins used by the sources (ASCII strings) *)

Module JS.

Definition isWhiteSpace (c : ascii) : bool :=
  let n := nat_of_ascii c in
  (Nat.eqb n 32 || (Nat.leb 9 n && Nat.leb n 13))%bool.

Fixpoint trimStart (s : string) : string :=
  match s with
  | EmptyString => EmptyString
  | String c s' => if isWhiteSpace c then trimStart s' else s
  end.

Fixpoint reverse_onto (s acc : string) : string :=
  match s with
  | EmptyString => acc
  | String c s' => reverse_onto s' (String c acc)
  end.

Definition reverse (s : string) : string := reverse_onto s EmptyString.

(** [String.prototype.trim] *)
Definition trim (s : string) : string :=
  reverse (trimStart (reverse (trimStart s))).

Definition upperChar (c : ascii) : ascii :=
  let n := nat_of_ascii c in
  if (Nat.leb 97 n && Nat.leb n 122)%bool then ascii_of_nat (n - 32) else c.

Definition lowerChar (c : ascii) : ascii :=
  let n := nat_of_ascii c in
  if (Nat.leb 65 n && Nat.leb n 90)%bool then ascii_of_nat (n + 32) else c.

Fixpoint mapChars (f : ascii -> ascii) (s : string) : string :=
  match s with
  | EmptyString => EmptyString
  | String c s' => String (f c) (mapChars f s')
  end.

Definition toUpperCase : string -> string := mapChars upperChar.
Definition toLowerCase : string -> string := mapChars lowerChar.

Fixpoint dropChars (n : nat) (s : string) : string :=
  match n, s with
  | O, _ => s
  | S n', String _ s' => dropChars n' s'
  | S _, EmptyString => EmptyString
  end.

(** [s.replace(pat, rep)] with a string pattern: the first occurrence only. *)
Fixpoint replace (pat rep s : string) : string :=
  if prefix pat s then rep ++ dropChars (String.length pat) s
  else match s with
       | EmptyString => EmptyString
       | String c s' => String c (replace pat rep s')
       end.

(** Truthiness of a string value: every string but the empty one. *)
Definition truthy (s : string) : bool := negb (s =? EmptyString).

(** [v || d] on an optional string: [undefined] and the empty string are falsy. *)
Definition orDefault (v : option string) (d : string) : string :=
  match v with
  | Some s => if truthy s then s else d
  | None => d
  end.

(** [Math.max(a, b)]: NaN when an argument is NaN, and [+0] counts as
    larger than [-0]. *)
Definition Math_max (a b : float) : float :=
  if is_nan a then a
  else if is_nan b then b
  else if (a <? b)%float then b
  else if (b <? a)%float then a
  else if get_sign a then b else a.

(** [Math.ceil(a / b)] on integers, [None] when the quotient is not finite. *)
Definition Math_ceil_div (a b : Z) : option Z :=
  if (b =? 0)%Z then None else Some (- ((- a) / b))%Z.

(** [Number.isInteger(x)]: a finite value with no fractional part. *)
Definition isInteger (x : float) : bool :=
  match Prim2SF x with
  | S754_zero _ => true
  | S754_finite _ m e => (0 <=? e)%Z || (Z.land (Zpos m) (Z.ones (- e)) =? 0)%Z
  | _ => false
  end.

End JS.

(** ** Regular expressions of the sources

    The literals of [User.js] and [security.js] are written as terms of
    [Regex.t] and matched by derivatives; [matches] is a whole-string match
    (the literals are anchored by [^] and [$]). *)

Module Regex.

Inductive t : Type :=
| Void
| Eps
| Class (p : ascii -> bool)
| Cat (r1 r2 : t)
| Alt (r1 r2 : t)
| Star (r : t).

Definition Plus (r : t) : t := Cat r (Star r).
Definition Opt (r : t) : t := Alt Eps r.

Fixpoint nullable (r : t) : bool :=
  match r with
  | Void => false
  | Eps => true
  | Class _ => false
  | Cat r1 r2 => nullable r1 && nullable r2
  | Alt r1 r2 => nullable r1 || nullable r2
  | Star _ => true
  end.

Fixpoint deriv (c : ascii) (r : t) : t :=
  match r with
  | Void => Void
  | Eps => Void
  | Class p => if p c then Eps else Void
  | Cat r1 r2 =>
      if nullable r1 then Alt (Cat (deriv c r1) r2) (deriv c r2)
      else Cat (deriv c r1) r2
  | Alt r1 r2 => Alt (deriv c r1) (deriv c r2)
  | Star r1 => Cat (deriv c r1) (Star r1)
  end.

(** Smart constructors keep the derivatives small. *)
Fixpoint reduce (r : t) : t :=
  match r with
  | Cat r1 r2 =>
      match reduce r1, reduce r2 with
      | Void, _ => Void
      | _, Void => Void
      | Eps, r2' => r2'
      | r1', Eps => r1'
      | r1', r2' => Cat r1' r2'
      end
  | Alt r1 r2 =>
      match reduce r1, reduce r2 with
      | Void, r2' => r2'
      | r1', Void => r1'
      | r1', r2' => Alt r1' r2'
      end
  | _ => r
  end.

Fixpoint matches (r : t) (s : string) : bool :=
  match s with
  | EmptyString => nullable r
  | String c s' => matches (reduce (deriv c r)) s'
  end.

Definition between (lo hi : nat) (c : ascii) : bool :=
  let n := nat_of_ascii c in (Nat.leb lo n && Nat.leb n hi).

Definition lower : ascii -> bool := between 97 122.
Definition upper : ascii -> bool := between 65 90.
Definition digit : ascii -> bool := between 48 57.
Definition code (n : nat) (c : ascii) : bool := Nat.eqb (nat_of_ascii c) n.

(** [\w] *)
Definition word (c : ascii) : bool := lower c || upper c || digit c || code 95 c.

(** [[.-]] *)
Definition dotOrDash (c : ascii) : bool := code 46 c || code 45 c.

Fixpoint anyChar (p : ascii -> bool) (s : string) : bool :=
  match s with
  | EmptyString => false
  | String c s' => p c || anyChar p s'
  end.

(** The part of a string that [.*] can cross from its start: up to the
    first line terminator. *)
Fixpoint firstLine (s : string) : string :=
  match s with
  | EmptyString => EmptyString
  | String c s' => if code 10 c || code 13 c then EmptyString else String c (firstLine s')
  end.

End Regex.

(** ** Classes of binary64 values

    The values of [spec_float] by sign, for the properties of the
    arithmetic of [updateQuantity]. *)

Module Double.

(** The sign of a value that is not NaN. *)
Definition signed (s : bool) (x : spec_float) : Prop :=
  match x with
  | S754_nan => False
  | S754_zero s' | S754_infinity s' | S754_finite s' _ _ => s' = s
  end.

(** At least zero: [0 <= x]. *)
Definition nonneg (x : spec_float) : Prop :=
  match x with
  | S754_zero _ | S754_infinity false | S754_finite false _ _ => True
  | _ => False
  end.

(** At most zero, and not NaN. *)
Definition nonpos (x : spec_float) : Prop :=
  match x with
  | S754_zero _ | S754_infinity true | S754_finite true _ _ => True
  | _ => False
  end.

(** The number a finite value stands for, as an exact fraction. *)
Definition exact (x : spec_float) : option Q :=
  match x with
  | S754_zero _ => Some 0%Q
  | S754_finite s m e =>
      Some ((if s then - inject_Z (Zpos m) else inject_Z (Zpos m)) * Qpower 2 e)%Q
  | _ => None
  end.

End Double.

(** ** Identifiers and errors *)

(** A well-formed [ObjectId]. *)
Definition ObjectId : Type := N.

(** A route parameter or token payload that Mongoose casts to an
    [ObjectId]: the cast succeeds ([ValidId]) or raises a [CastError] of kind
    ObjectId ([InvalidId], with the raw text). *)
Inductive IdParam : Type :=
| ValidId (oid : ObjectId)
| InvalidId (raw : string).

(** Modelled from the spec: the error classes of [utils/errors], which is
    not among the sources. They are the taxonomy of the specification's
    error handling section (ValidationError, AuthenticationError,
    AuthorizationError, NotFoundError, ConflictError), each constructed
    from its message as the controllers do. The other constructors are the
    errors raised below a handler by Mongoose, the MongoDB driver, bcrypt
    and the JavaScript engine. A handler wrapped in [catchAsync] hands what
    it throws to the global error handler: the outcome [Threw]. *)
Inductive Error : Type :=
| ValidationError (message : string)
| AuthenticationError (message : string)
| AuthorizationError (message : string)
| NotFoundError (message : string)
| ConflictError (message : string)
| MongooseValidationError (messages : list string)
| MongoServerError (code : Z) (message : string)
| CastError (kind : string) (message : string)
| TypeError (message : string)
| BcryptError (message : string).

Definition join (sep : string) (l : list string) : string :=
  match l with
  | [] => EmptyString
  | x :: r => fold_left (fun acc y : string => (acc ++ sep ++ y)%string) r x
  end.

(** [error.message] *)
Definition Error_message (e : Error) : string :=
  match e with
  | ValidationError m | AuthenticationError m | AuthorizationError m
  | NotFoundError m | ConflictError m | MongoServerError _ m
  | CastError _ m | TypeError m | BcryptError m => m
  | MongooseValidationError ms => join ", " ms
  end.

(** [error.kind === 'ObjectId'] *)
Definition Error_kindIsObjectId (e : Error) : bool :=
  match e with
  | CastError k _ => k =? "ObjectId"
  | _ => false
  end.

(** [error.code === 11000] *)
Definition Error_codeIs11000 (e : Error) : bool :=
  match e with
  | MongoServerError c _ => (c =? 11000)%Z
  | _ => false
  end.

Definition duplicateKey : Error := MongoServerError 11000 "E11000 duplicate key error".

Definition castObjectIdError (raw : string) : Error :=
  CastError "ObjectId" ("Cast to ObjectId failed for value " ++ raw)%string.

(** First failing validator of a path, if any. *)
Definition check (ok : bool) (message : string) : option string :=
  if ok then None else Some message.

Definition orElse (a b : option string) : option string :=
  match a with
  | Some _ => a
  | None => b
  end.

(** A required path: absent fails with [message], present runs [validators]. *)
Definition required {A : Type} (message : string) (v : option A)
    (validators : A -> option string) : option string :=
  match v with
  | None => Some message
  | Some x => validators x
  end.

(** An optional path: validators run only on a present value. *)
Definition optional {A : Type} (v : option A)
    (validators : A -> option string) : option string :=
  match v with
  | None => None
  | Some x => validators x
  end.

Fixpoint collect (l : list (option string)) : list string :=
  match l with
  | [] => []
  | Some m :: r => m :: collect r
  | None :: r => collect r
  end.

(** The validator [min: [0, message]]: [value >= 0]. *)
Definition min0 (x : float) : bool := (0 <=? x)%float.

(** ** models/User.js *)

Module User.

Record t : Type := mk {
  _id : ObjectId;
  username : string;
  email : string;
  password : option string;   (* [None]: deselected or deleted from the JSON *)
  role : string;
  isActive : bool;
  createdAt : Z;
  updatedAt : Z
}.

(** [/^\w+([.-]?\w+)*@\w+([.-]?\w+)*(\.\w{2,3})+$/] *)
Definition emailMatch : Regex.t :=
  let w := Regex.Class Regex.word in
  let words :=
    Regex.Cat (Regex.Plus w)
      (Regex.Star (Regex.Cat (Regex.Opt (Regex.Class Regex.dotOrDash)) (Regex.Plus w))) in
  let tld :=
    Regex.Cat (Regex.Class (Regex.code 46)) (Regex.Cat w (Regex.Cat w (Regex.Opt w))) in
  Regex.Cat words (Regex.Cat (Regex.Class (Regex.code 64)) (Regex.Cat words (Regex.Plus tld))).

(** Schema setters: [trim] on username; [lowercase] and [trim] on email. *)
Definition setUsername (s : string) : string := JS.trim s.
Definition setEmail (s : string) : string := JS.trim (JS.toLowerCase s).

Definition validateUsername (s : string) : option string :=
  orElse (check (JS.truthy s) "Username is required")
 (orElse (check (3 <=? String.length s)%nat "Username must be at least 3 characters long")
         (check (String.length s <=? 30)%nat "Username cannot exceed 30 characters")).

Definition validateEmail (s : string) : option string :=
  orElse (check (JS.truthy s) "Email is required")
         (check (Regex.matches emailMatch s) "Please enter a valid email").

Definition validatePassword (s : string) : option string :=
  orElse (check (JS.truthy s) "Password is required")
         (check (6 <=? String.length s)%nat "Password must be at least 6 characters long").

Definition validateRole (s : string) : option string :=
  check ((s =? "user") || (s =? "admin"))
        ("`" ++ s ++ "` is not a valid enum value for path `role`.")%string.

(** Document validation run by [save()]. *)
Definition validate (u : t) : list string :=
  collect [ validateUsername (username u);
            validateEmail (email u);
            required "Password is required" (password u) validatePassword;
            validateRole (role u) ].

(** [select('-password')] and the [toJSON] override: the password is left out. *)
Definition withoutPassword (u : t) : t :=
  mk (_id u) (username u) (email u) None (role u) (isActive u) (createdAt u) (updatedAt u).

Definition toJSON : t -> t := withoutPassword.

End User.

(** ** models/Product.js *)

Module Supplier.
Record t : Type := mk { name : option string; contact : option string }.
Definition trimmed (s : t) : t := mk (option_map JS.trim (name s)) (option_map JS.trim (contact s)).
End Supplier.

Module Product.

Record t : Type := mk {
  _id : ObjectId;
  name : string;
  description : string;
  sku : string;
  category : string;
  price : float;
  cost : float;
  quantity : float;
  minQuantity : float;
  maxQuantity : option float;
  unit : string;
  supplier : option Supplier.t;
  location : option string;
  isActive : bool;
  createdBy : ObjectId;
  createdAt : Z;
  updatedAt : Z
}.

(** Validators of each schema path, on the value after its setters. *)
Definition validateName (s : string) : option string :=
  orElse (check (JS.truthy s) "Product name is required")
         (check (String.length s <=? 100)%nat "Product name cannot exceed 100 characters").

Definition validateDescription (s : string) : option string :=
  orElse (check (JS.truthy s) "Product description is required")
         (check (String.length s <=? 500)%nat "Description cannot exceed 500 characters").

Definition validateSku (s : string) : option string := check (JS.truthy s) "SKU is required".
Definition validateCategory (s : string) : option string := check (JS.truthy s) "Category is required".
Definition validateUnit (s : string) : option string := check (JS.truthy s) "Unit is required".
Definition validatePrice (x : float) : option string := check (min0 x) "Price cannot be negative".
Definition validateCost (x : float) : option string := check (min0 x) "Cost cannot be negative".
Definition validateQuantity (x : float) : option string := check (min0 x) "Quantity cannot be negative".
Definition validateMinQuantity (x : float) : option string :=
  check (min0 x) "Minimum quantity cannot be negative".
Definition validateMaxQuantity (x : float) : option string :=
  check (min0 x) "Maximum quantity cannot be negative".

(** Document validation run by [save()] on a stored document. *)
Definition validate (p : t) : list string :=
  collect [ validateName (name p);
            validateDescription (description p);
            validateSku (sku p);
            validateCategory (category p);
            validatePrice (price p);
            validateCost (cost p);
            validateQuantity (quantity p);
            validateMinQuantity (minQuantity p);
            optional (maxQuantity p) validateMaxQuantity;
            validateUnit (unit p) ].

(** The [stockStatus] virtual. *)
Definition stockStatus (p : t) : string :=
  if (quantity p <=? 0)%float then "out-of-stock"
  else if (quantity p <=? minQuantity p)%float then "low-stock"
  else "in-stock".

Definition setQuantity (q : float) (p : t) : t :=
  mk (_id p) (name p) (description p) (sku p) (category p) (price p) (cost p)
     q (minQuantity p) (maxQuantity p) (unit p) (supplier p) (location p)
     (isActive p) (createdBy p) (createdAt p) (updatedAt p).

Definition setIsActive (b : bool) (p : t) : t :=
  mk (_id p) (name p) (description p) (sku p) (category p) (price p) (cost p)
     (quantity p) (minQuantity p) (maxQuantity p) (unit p) (supplier p) (location p)
     b (createdBy p) (createdAt p) (updatedAt p).

Definition setUpdatedAt (now : Z) (p : t) : t :=
  mk (_id p) (name p) (description p) (sku p) (category p) (price p) (cost p)
     (quantity p) (minQuantity p) (maxQuantity p) (unit p) (supplier p) (location p)
     (isActive p) (createdBy p) (createdAt p) now.

End Product.

(** The body of [POST /api/products] and [PUT /api/products/:id]: the schema
    paths a client can send. *)
Module ProductBody.

Record t : Type := mk {
  name : option string;
  description : option string;
  sku : option string;
  category : option string;
  price : option float;
  cost : option float;
  quantity : option float;
  minQuantity : option float;
  maxQuantity : option float;
  unit : option string;
  supplier : option Supplier.t;
  location : option string;
  isActive : option bool;
  createdBy : option ObjectId
}.

Definition empty : t :=
  mk None None None None None None None None None None None None None None.

(** The schema's setters applied to the paths present ([trim]; [uppercase] on sku). *)
Definition cast (b : t) : t :=
  mk (option_map JS.trim (name b))
     (option_map JS.trim (description b))
     (option_map (fun s => JS.trim (JS.toUpperCase s)) (sku b))
     (option_map JS.trim (category b))
     (price b) (cost b) (quantity b) (minQuantity b) (maxQuantity b)
     (option_map JS.trim (unit b))
     (option_map Supplier.trimmed (supplier b))
     (option_map JS.trim (location b))
     (isActive b) (createdBy b).

Definition setName (v : option string) (b : t) : t :=
  mk v (description b) (sku b) (category b) (price b) (cost b) (quantity b)
     (minQuantity b) (maxQuantity b) (unit b) (supplier b) (location b)
     (isActive b) (createdBy b).

Definition setCreatedBy (v : option ObjectId) (b : t) : t :=
  mk (name b) (description b) (sku b) (category b) (price b) (cost b) (quantity b)
     (minQuantity b) (maxQuantity b) (unit b) (supplier b) (location b)
     (isActive b) v.

(** Validation of a new document built from the body ([new Product(body)],
    defaults applied: quantity 0, minQuantity 0). *)
Definition validateNew (b : t) : list string :=
  collect [ required "Product name is required" (name b) Product.validateName;
            required "Product description is required" (description b) Product.validateDescription;
            required "SKU is required" (sku b) Product.validateSku;
            required "Category is required" (category b) Product.validateCategory;
            required "Price is required" (price b) Product.validatePrice;
            required "Cost is required" (cost b) Product.validateCost;
            optional (quantity b) Product.validateQuantity;
            optional (minQuantity b) Product.validateMinQuantity;
            optional (maxQuantity b) Product.validateMaxQuantity;
            required "Unit is required" (unit b) Product.validateUnit ].

(** Update validators ([runValidators: true]): only the paths of the update. *)
Definition validateUpdate (b : t) : list string :=
  collect [ optional (name b) Product.validateName;
            optional (description b) Product.validateDescription;
            optional (sku b) Product.validateSku;
            optional (category b) Product.validateCategory;
            optional (price b) Product.validatePrice;
            optional (cost b) Product.validateCost;
            optional (quantity b) Product.validateQuantity;
            optional (minQuantity b) Product.validateMinQuantity;
            optional (maxQuantity b) Product.validateMaxQuantity;
            optional (unit b) Product.validateUnit ].

Definition orKeep {A : Type} (v : option A) (old : A) : A :=
  match v with
  | Some x => x
  | None => old
  end.

Definition orKeepOpt {A : Type} (v : option A) (old : option A) : option A :=
  match v with
  | Some x => Some x
  | None => old
  end.

(** The document a [$set] of the (cast) body leaves; [updatedAt] is refreshed. *)
Definition applyTo (now : Z) (b : t) (p : Product.t) : Product.t :=
  Product.mk (Product._id p)
    (orKeep (name b) (Product.name p))
    (orKeep (description b) (Product.description p))
    (orKeep (sku b) (Product.sku p))
    (orKeep (category b) (Product.category p))
    (orKeep (price b) (Product.price p))
    (orKeep (cost b) (Product.cost p))
    (orKeep (quantity b) (Product.quantity p))
    (orKeep (minQuantity b) (Product.minQuantity p))
    (orKeepOpt (maxQuantity b) (Product.maxQuantity p))
    (orKeep (unit b) (Product.unit p))
    (orKeepOpt (supplier b) (Product.supplier p))
    (orKeepOpt (location b) (Product.location p))
    (orKeep (isActive b) (Product.isActive p))
    (orKeep (createdBy b) (Product.createdBy p))
    (Product.createdAt p)
    now.

(** The new document, when every required path is present. *)
Definition toDocument (id : ObjectId) (now : Z) (b : t) : option Product.t :=
  match name b, description b, sku b, category b, price b, cost b, unit b, createdBy b with
  | Some n, Some d, Some s, Some c, Some pr, Some co, Some u, Some owner =>
      Some (Product.mk id n d s c pr co
              (orKeep (quantity b) 0%float) (orKeep (minQuantity b) 0%float) (maxQuantity b)
              u (supplier b) (location b) (orKeep (isActive b) true) owner now now)
  | _, _, _, _, _, _, _, _ => None
  end.

End ProductBody.

(** ** Library code taken as a parameter *)

(** The result of [jwt.verify(token, secret)]: the decoded payload's
    [userId], or the error it throws, by [error.name]. *)
Inductive JwtResult : Type :=
| JwtPayload (userId : IdParam)
| JsonWebTokenError
| TokenExpiredError
| NotBeforeError.

Record Platform : Type := {
  (** MongoDB's [$regex] with [$options: 'i']: pattern, then subject. *)
  regexTest : string -> string -> bool;
  (** [jwt.sign({ userId }, secret, { expiresIn })] at a given time. *)
  jwt_sign : ObjectId -> Z -> string;
  (** [jwt.verify(token, secret)] at a given time. *)
  jwt_verify : string -> Z -> JwtResult;
  (** [bcrypt.hash(password, salt)] and [bcrypt.compare(candidate, hash)]. *)
  bcrypt_hash : string -> string -> string;
  bcrypt_compare : string -> string -> bool;
  (** validator.js: [isEmail], [normalizeEmail], [escape]. *)
  isEmail : string -> bool;
  normalizeEmail : string -> string;
  escape : string -> string
}.

(** What a request draws from its environment: the clock, the [ObjectId]
    generated for a new document, the salt of [bcrypt.genSalt], and the
    order in which the server visits the users when a query can match
    several of them (a rank of their ids; see [scanOrder]). *)
Record Env : Type := {
  now : Z;
  newId : ObjectId;
  salt : string;
  scanRank : ObjectId -> N
}.

(** ** The document store *)

Record DB : Type := {
  users : list User.t;
  products : list Product.t
}.

Definition emptyDB : DB := {| users := []; products := [] |}.

Definition withUsers (us : list User.t) (db : DB) : DB :=
  {| users := us; products := products db |}.

Definition withProducts (ps : list Product.t) (db : DB) : DB :=
  {| users := users db; products := ps |}.

(** [Model.findOne(filter)]: the first document of the scan that matches. *)
Definition findOne {A : Type} (filter : A -> bool) (collection : list A) : option A :=
  find filter collection.

(** [Model.countDocuments(filter)] *)
Definition countDocuments {A : Type} (filter : A -> bool) (collection : list A) : nat :=
  List.length (List.filter filter collection).

(** Replace the first document that matches by its image under [f]. *)
Fixpoint updateOne {A : Type} (filter : A -> bool) (f : A -> A) (collection : list A) : list A :=
  match collection with
  | [] => []
  | x :: r => if filter x then f x :: r else x :: updateOne filter f r
  end.

Definition hasProductId (id : ObjectId) (p : Product.t) : bool := (Product._id p =? id)%N.
Definition hasUserId (id : ObjectId) (u : User.t) : bool := (User._id u =? id)%N.

(** ** Responses *)

(** The projection of [populate('createdBy', 'username email')]. *)
Module UserRef.
Record t : Type := mk { _id : ObjectId; username : string; email : string }.
Definition project (u : User.t) : t := mk (User._id u) (User.username u) (User.email u).
End UserRef.

(** A product in a response: as stored, or with [createdBy] populated
    ([None] when the referenced user does not exist). *)
Inductive ProductJson : Type :=
| Plain (product : Product.t)
| Populated (product : Product.t) (createdBy : option UserRef.t).

Definition document (j : ProductJson) : Product.t :=
  match j with
  | Plain p => p
  | Populated p _ => p
  end.

Module Pagination.
Record t : Type := mk {
  currentPage : Z;
  totalPages : option Z;
  totalProducts : nat;
  hasNextPage : bool;
  hasPrevPage : bool
}.
End Pagination.

Module Stats.
Record t : Type := mk {
  totalProducts : nat;
  totalValue : float;
  totalCost : float;
  lowStockProducts : nat;
  outOfStockProducts : nat
}.
Definition zero : t := mk 0 0%float 0%float 0 0.
End Stats.

Module CategoryStat.
Record t : Type := mk { _id : string; count : nat; totalValue : float }.
End CategoryStat.

Inductive Json : Type :=
| JError (error : string) (message : option string)
| JProduct (status : option string) (message : string) (product : ProductJson)
| JProducts (message : string) (products : list ProductJson) (pagination : Pagination.t)
| JStats (message : string) (stats : Stats.t) (categoryStats : list CategoryStat.t)
| JUser (status : string) (message : string) (user : User.t) (token : option string).

Inductive Outcome : Type :=
| Sent (status : Z) (body : Json)
| Threw (e : Error)
| Next (user : User.t).

Definition statusOf (o : Outcome) : option Z :=
  match o with
  | Sent s _ => Some s
  | _ => None
  end.

(** [res.json(body)]: status 200. *)
Definition json (body : Json) : Outcome := Sent 200 body.

(** ** Sorting as [find(filter).sort({ [sortBy]: 1 | -1 })] *)

Inductive Key : Type :=
| KNull
| KNum (x : float)
| KStr (s : string)
| KId (id : ObjectId)
| KBool (b : bool)
| KDate (z : Z).

(** BSON's order of types. *)
Definition Key_rank (k : Key) : nat :=
  match k with
  | KNull => 0
  | KNum _ => 1
  | KStr _ => 2
  | KId _ => 3
  | KBool _ => 4
  | KDate _ => 5
  end.

Definition Key_leb (a b : Key) : bool :=
  match a, b with
  | KNum x, KNum y => is_nan x || (x <=? y)%float
  | KStr x, KStr y => String.leb x y
  | KId x, KId y => (x <=? y)%N
  | KBool x, KBool y => implb x y
  | KDate x, KDate y => (x <=? y)%Z
  | _, _ => (Key_rank a <=? Key_rank b)%nat
  end.

Definition optKey {A : Type} (f : A -> Key) (v : option A) : Key :=
  match v with
  | Some x => f x
  | None => KNull
  end.

Definition sortKey (field : string) (p : Product.t) : Key :=
  if field =? "_id" then KId (Product._id p)
  else if field =? "name" then KStr (Product.name p)
  else if field =? "description" then KStr (Product.description p)
  else if field =? "sku" then KStr (Product.sku p)
  else if field =? "category" then KStr (Product.category p)
  else if field =? "price" then KNum (Product.price p)
  else if field =? "cost" then KNum (Product.cost p)
  else if field =? "quantity" then KNum (Product.quantity p)
  else if field =? "minQuantity" then KNum (Product.minQuantity p)
  else if field =? "maxQuantity" then optKey KNum (Product.maxQuantity p)
  else if field =? "unit" then KStr (Product.unit p)
  else if field =? "location" then optKey KStr (Product.location p)
  else if field =? "isActive" then KBool (Product.isActive p)
  else if field =? "createdBy" then KId (Product.createdBy p)
  else if field =? "createdAt" then KDate (Product.createdAt p)
  else if field =? "updatedAt" then KDate (Product.updatedAt p)
  else KNull.

Fixpoint insertBy {A : Type} (le : A -> A -> bool) (x : A) (l : list A) : list A :=
  match l with
  | [] => [x]
  | y :: r => if le x y then x :: l else y :: insertBy le x r
  end.

Fixpoint insertionSort {A : Type} (le : A -> A -> bool) (l : list A) : list A :=
  match l with
  | [] => []
  | x :: r => insertBy le x (insertionSort le r)
  end.

(** [direction] is 1 (ascending) or -1 (descending). *)
Definition sortProducts (field : string) (direction : Z) (l : list Product.t) : list Product.t :=
  if (direction =? 1)%Z
  then insertionSort (fun a b => Key_leb (sortKey field a) (sortKey field b)) l
  else insertionSort (fun a b => Key_leb (sortKey field b) (sortKey field a)) l.

(** The order in which a query without a sort visits the users. The
    source fixes none, and a query that several documents match
    ([register]'s [$or]) returns the first of them in the server's order:
    here the users by the rank the environment gives their ids, those of
    equal rank in insertion order. *)
Definition scanOrder (env : Env) (collection : list User.t) : list User.t :=
  insertionSort (fun a b => (scanRank env (User._id a) <=? scanRank env (User._id b))%N)
    collection.

(** ** Requests *)

(** The query string of [GET /api/products], after [parseInt]/[parseFloat]:
    [None] is an absent parameter. A page or a limit that [parseInt] reads
    as NaN is outside the model. *)
Module ListQuery.
Record t : Type := mk {
  page : option Z;
  limit : option Z;
  category : option string;
  search : option string;
  minPrice : option float;
  maxPrice : option float;
  stockStatus : option string;
  sortBy : option string;
  sortOrder : option string
}.
End ListQuery.

(** The body of [PATCH /api/products/:id/quantity]: [quantity] is the
    number sent ([typeof quantity === 'number']), [None] when the key is
    absent. *)
Module QuantityBody.
Record t : Type := mk { quantity : option float; operation : option string }.
End QuantityBody.

(** The filter object that [getProducts] builds. *)
Module Filter.
Inductive QuantityCond : Type :=
| Gt (q : float)     (* { $gt: q } *)
| Equals (q : float).
Record t : Type := mk {
  isActive : bool;
  createdBy : ObjectId;
  category : option string;       (* { $regex, $options: 'i' } *)
  or_ : option string;            (* $or over name, description, sku *)
  price : option (option float * option float);   (* { $gte?, $lte? } *)
  quantity : option QuantityCond;
  expr_quantity_lte_minQuantity : bool
}.
End Filter.

(** The body of [POST /api/auth/register] as the client sends it. *)
Module RegisterBody.
Record t : Type := mk {
  username : option string;
  email : option string;
  password : option string;
  role : option string
}.
End RegisterBody.

(** The body [register] destructures once [userRegister] has passed. *)
Module Registration.
Record t : Type := mk {
  username : string;
  email : string;
  password : string;
  role : option string
}.
End Registration.

Module LoginBody.
Record t : Type := mk { email : option string; password : option string }.
End LoginBody.

Module Credentials.
Record t : Type := mk { email : string; password : string }.
End Credentials.

(** The requests of [routes/product.js], behind [router.use(auth)]. *)
Inductive ProductRequest : Type :=
| PostProduct (body : ProductBody.t)
| GetProducts (query : ListQuery.t)
| GetStats
| GetProductById (id : IdParam)
| PutProduct (id : IdParam) (body : ProductBody.t)
| DeleteProduct (id : IdParam)
| PatchQuantity (id : IdParam) (body : QuantityBody.t).

(** The requests of the API that reach the store. *)
Inductive Request : Type :=
| PostRegister (body : RegisterBody.t)
| PostLogin (body : LoginBody.t)
| Products (authorization : option string) (request : ProductRequest).

Definition optTruthy (v : option string) : bool :=
  match v with
  | Some s => JS.truthy s
  | None => false
  end.

Definition isSome {A : Type} (v : option A) : bool :=
  match v with
  | Some _ => true
  | None => false
  end.

Definition withDefault {A : Type} (v : option A) (d : A) : A :=
  match v with
  | Some x => x
  | None => d
  end.

Definition notFound : Outcome :=
  Sent 404 (JError "Product not found" (Some "No product found with the provided ID")).

Definition accessDenied (message : string) : Outcome :=
  Sent 403 (JError "Access denied" (Some message)).

Definition invalidQuantity : Outcome :=
  Sent 400 (JError "Invalid quantity" (Some "Quantity must be a non-negative number")).

(** [$sum] over numbers, from 0. *)
Definition sumOf (l : list float) : float := fold_left PrimFloat.add l 0%float.

Definition countIf {A : Type} (f : A -> bool) (l : list A) : nat :=
  List.length (List.filter f l).

Fixpoint addToGroup (p : Product.t) (groups : list CategoryStat.t) : list CategoryStat.t :=
  match groups with
  | [] => [CategoryStat.mk (Product.category p) 1 (0 + Product.price p * Product.quantity p)%float]
  | g :: r =>
      if CategoryStat._id g =? Product.category p
      then CategoryStat.mk (CategoryStat._id g) (S (CategoryStat.count g))
             (CategoryStat.totalValue g + Product.price p * Product.quantity p)%float :: r
      else g :: addToGroup p r
  end.

Definition groupByCategory (l : list Product.t) : list CategoryStat.t :=
  fold_left (fun groups p => addToGroup p groups) l [].

Section Controllers.

Variable P : Platform.

(** ** controllers/product.js *)

Definition populate (db : DB) (p : Product.t) : ProductJson :=
  Populated p (option_map UserRef.project (findOne (hasUserId (Product.createdBy p)) (users db))).

(** The [catch] blocks: a [CastError] of the id answers 400, the rest 500. *)
Definition catchError (failed : string) (e : Error) : Outcome :=
  if Error_kindIsObjectId e
  then Sent 400 (JError "Invalid product ID" (Some "Please provide a valid product ID"))
  else Sent 500 (JError failed (Some (Error_message e))).

Definition catchUpdateError (e : Error) : Outcome :=
  if Error_kindIsObjectId e
  then Sent 400 (JError "Invalid product ID" (Some "Please provide a valid product ID"))
  else if Error_codeIs11000 e
  then Sent 400 (JError "Duplicate SKU" (Some "A product with this SKU already exists"))
  else Sent 500 (JError "Failed to update product" (Some (Error_message e))).

(** [createProduct], lines 11-25. *)
Definition createProduct (env : Env) (user : User.t) (body : ProductBody.t) (db : DB)
  : DB * Outcome :=
  let productData := ProductBody.setCreatedBy (Some (User._id user)) body in
  let product := ProductBody.cast productData in
  match ProductBody.validateNew product with
  | [] =>
      match ProductBody.toDocument (newId env) (now env) product with
      | Some doc =>
          if existsb (fun q => hasProductId (newId env) q || (Product.sku q =? Product.sku doc))
                     (products db)
          then (db, Threw duplicateKey)
          else (withProducts (products db ++ [doc]) db,
                Sent 201 (JProduct (Some "success") "Product created successfully" (Plain doc)))
      | None =>
          (* not reached: validation has found every required path *)
          (db, Threw (MongooseValidationError []))
      end
  | errors => (db, Threw (MongooseValidationError errors))
  end.

(** [getProducts], lines 42-78: the filter object. *)
Definition buildFilter (user : User.t) (q : ListQuery.t) : Filter.t :=
  Filter.mk true (User._id user)
    (if optTruthy (ListQuery.category q) then ListQuery.category q else None)
    (if optTruthy (ListQuery.search q) then ListQuery.search q else None)
    (if isSome (ListQuery.minPrice q) || isSome (ListQuery.maxPrice q)
     then Some (ListQuery.minPrice q, ListQuery.maxPrice q) else None)
    (match ListQuery.stockStatus q with
     | Some s => if s =? "in-stock" then Some (Filter.Gt 0)
                 else if s =? "out-of-stock" then Some (Filter.Equals 0)
                 else None
     | None => None
     end)
    (match ListQuery.stockStatus q with
     | Some s => s =? "low-stock"
     | None => false
     end).

(** A document matches the filter object. *)
Definition matchesFilter (f : Filter.t) (p : Product.t) : bool :=
  Bool.eqb (Product.isActive p) (Filter.isActive f)
  && (Product.createdBy p =? Filter.createdBy f)%N
  && match Filter.category f with
     | Some c => regexTest P c (Product.category p)
     | None => true
     end
  && match Filter.or_ f with
     | Some s => regexTest P s (Product.name p)
                 || regexTest P s (Product.description p)
                 || regexTest P s (Product.sku p)
     | None => true
     end
  && match Filter.price f with
     | Some (gte, lte) =>
         match gte with Some m => (m <=? Product.price p)%float | None => true end
         && match lte with Some m => (Product.price p <=? m)%float | None => true end
     | None => true
     end
  && match Filter.quantity f with
     | Some (Filter.Gt q) => (q <? Product.quantity p)%float
     | Some (Filter.Equals q) => (Product.quantity p =? q)%float
     | None => true
     end
  && (if Filter.expr_quantity_lte_minQuantity f
      then (Product.quantity p <=? Product.minQuantity p)%float else true).

(** [.skip(n)]: a negative skip is refused by the server. *)
Definition skipDocs {A : Type} (n : Z) (l : list A) : list A := skipn (Z.to_nat n) l.

(** [.limit(n)]: 0 is no limit, a negative limit counts as its absolute value. *)
Definition limitDocs {A : Type} (n : Z) (l : list A) : list A :=
  if (n =? 0)%Z then l else firstn (Z.abs_nat n) l.

(** [getProducts], lines 28-113. *)
Definition getProducts (user : User.t) (query : ListQuery.t) (db : DB) : DB * Outcome :=
  let page := withDefault (ListQuery.page query) 1%Z in
  let limit := withDefault (ListQuery.limit query) 10%Z in
  let sortBy := withDefault (ListQuery.sortBy query) "createdAt" in
  let sortOrder := withDefault (ListQuery.sortOrder query) "desc" in
  let filter := buildFilter user query in
  let direction := if sortOrder =? "desc" then (-1)%Z else 1%Z in
  let skip := ((page - 1) * limit)%Z in
  if (skip <? 0)%Z
  then (db, Sent 500 (JError "Failed to get products"
                        (Some "Skip value must be non-negative")))
  else
    let found :=
      limitDocs limit
        (skipDocs skip
           (sortProducts sortBy direction (List.filter (matchesFilter filter) (products db)))) in
    let total := countDocuments (matchesFilter filter) (products db) in
    (db, json (JProducts "Products retrieved successfully" (map (populate db) found)
                 (Pagination.mk page (JS.Math_ceil_div (Z.of_nat total) limit) total
                    (skip + Z.of_nat (List.length found) <? Z.of_nat total)%Z
                    (1 <? page)%Z))).

(** [getProduct], lines 116-155. *)
Definition getProduct (user : User.t) (id : IdParam) (db : DB) : DB * Outcome :=
  match id with
  | InvalidId raw => (db, catchError "Failed to get product" (castObjectIdError raw))
  | ValidId oid =>
      match findOne (hasProductId oid) (products db) with
      | None => (db, notFound)
      | Some product =>
          match findOne (hasUserId (Product.createdBy product)) (users db) with
          | None =>
              (* [product.createdBy] was populated with null *)
              (db, catchError "Failed to get product"
                     (TypeError "Cannot read properties of null (reading '_id')"))
          | Some owner =>
              if negb (User._id owner =? User._id user)%N
              then (db, accessDenied "You can only access your own products")
              else (db, json (JProduct None "Product retrieved successfully"
                                (Populated product (Some (UserRef.project owner)))))
          end
      end
  end.

(** A unique index on [sku]: another document already holds the value. *)
Definition skuTaken (oid : ObjectId) (sku : option string) (db : DB) : bool :=
  match sku with
  | Some s => existsb (fun q => negb (hasProductId oid q) && (Product.sku q =? s)) (products db)
  | None => false
  end.

(** [updateProduct], lines 158-210. *)
Definition updateProduct (env : Env) (user : User.t) (id : IdParam) (body : ProductBody.t)
    (db : DB) : DB * Outcome :=
  match id with
  | InvalidId raw => (db, catchUpdateError (castObjectIdError raw))
  | ValidId oid =>
      match findOne (hasProductId oid) (products db) with
      | None => (db, notFound)
      | Some existingProduct =>
          if negb (Product.createdBy existingProduct =? User._id user)%N
          then (db, accessDenied "You can only update your own products")
          else
            (* findByIdAndUpdate(id, req.body, { new: true, runValidators: true }) *)
            let update := ProductBody.cast body in
            match ProductBody.validateUpdate update with
            | [] =>
                if skuTaken oid (ProductBody.sku update) db
                then (db, catchUpdateError duplicateKey)
                else
                  let product := ProductBody.applyTo (now env) update existingProduct in
                  let db' := withProducts
                               (updateOne (hasProductId oid) (fun _ => product) (products db)) db in
                  (db', json (JProduct None "Product updated successfully" (populate db' product)))
            | errors => (db, catchUpdateError (MongooseValidationError errors))
            end
      end
  end.

(** [deleteProduct], lines 213-258. *)
Definition deleteProduct (env : Env) (user : User.t) (id : IdParam) (db : DB) : DB * Outcome :=
  match id with
  | InvalidId raw => (db, catchError "Failed to delete product" (castObjectIdError raw))
  | ValidId oid =>
      match findOne (hasProductId oid) (products db) with
      | None => (db, notFound)
      | Some existingProduct =>
          if negb (Product.createdBy existingProduct =? User._id user)%N
          then (db, accessDenied "You can only delete your own products")
          else
            (* findByIdAndUpdate(id, { isActive: false }, { new: true }) *)
            let product :=
              Product.setUpdatedAt (now env) (Product.setIsActive false existingProduct) in
            (withProducts (updateOne (hasProductId oid) (fun _ => product) (products db)) db,
             json (JProduct None "Product deleted successfully" (Plain product)))
      end
  end.

(** The [switch (operation)] of [updateQuantity], lines 289-301. *)
Definition newQuantity (operation : string) (current quantity : float) : float :=
  if operation =? "add" then (current + quantity)%float
  else if operation =? "subtract" then JS.Math_max 0 (current - quantity)
  else quantity.

(** [updateQuantity], lines 261-325. *)
Definition updateQuantity (env : Env) (user : User.t) (id : IdParam) (body : QuantityBody.t)
    (db : DB) : DB * Outcome :=
  let operation := withDefault (QuantityBody.operation body) "set" in
  match QuantityBody.quantity body with
  | None => (db, invalidQuantity)
  | Some quantity =>
      if (quantity <? 0)%float then (db, invalidQuantity)
      else
        match id with
        | InvalidId raw =>
            (db, catchError "Failed to update product quantity" (castObjectIdError raw))
        | ValidId oid =>
            match findOne (hasProductId oid) (products db) with
            | None => (db, notFound)
            | Some product =>
                if negb (Product.createdBy product =? User._id user)%N
                then (db, accessDenied "You can only update quantity for your own products")
                else
                  let q := newQuantity operation (Product.quantity product) quantity in
                  (* product.quantity = newQuantity; await product.save() *)
                  let modified := negb (q =? Product.quantity product)%float in
                  let assigned := Product.setQuantity q product in
                  match Product.validate assigned with
                  | [] =>
                      let saved :=
                        if modified then Product.setUpdatedAt (now env) assigned else product in
                      (withProducts
                         (updateOne (hasProductId oid) (fun _ => saved) (products db)) db,
                       json (JProduct None "Product quantity updated successfully" (Plain saved)))
                  | errors =>
                      (db, catchError "Failed to update product quantity"
                             (MongooseValidationError errors))
                  end
            end
        end
  end.

(** The [$match] stage of both aggregations. *)
Definition statsMatch (user : User.t) (p : Product.t) : bool :=
  Bool.eqb (Product.isActive p) true && (Product.createdBy p =? User._id user)%N.

Definition value (p : Product.t) : float := (Product.price p * Product.quantity p)%float.

(** The [$group] stage with [_id: null]: no group at all on no input. *)
Definition groupAll (l : list Product.t) : list Stats.t :=
  match l with
  | [] => []
  | _ =>
      [ Stats.mk (List.length l)
          (sumOf (map value l))
          (sumOf (map (fun p => (Product.cost p * Product.quantity p)%float) l))
          (countIf (fun p => (Product.quantity p <=? Product.minQuantity p)%float) l)
          (countIf (fun p => (Product.quantity p =? 0)%float) l) ]
  end.

(** [getInventoryStats], lines 328-390. *)
Definition getInventoryStats (user : User.t) (db : DB) : DB * Outcome :=
  let matched := List.filter (statsMatch user) (products db) in
  let stats := groupAll matched in
  let categoryStats :=
    insertionSort (fun a b => (CategoryStat.count b <=? CategoryStat.count a)%nat)
      (groupByCategory matched) in
  (db, json (JStats "Inventory statistics retrieved successfully"
               (hd Stats.zero stats) categoryStats)).

(** ** middleware/auth.js *)

(** [header.replace('Bearer ', '')] *)
Definition bearerToken (header : string) : string := JS.replace "Bearer " EmptyString header.

(** [auth], lines 48-119. *)
Definition auth (env : Env) (authorization : option string) (db : DB) : Outcome :=
  (* req.header('Authorization')?.replace('Bearer ', '') *)
  let token := option_map bearerToken authorization in
  match token with
  | None => Sent 401 (JError "Access denied. No token provided." None)
  | Some token =>
      if negb (JS.truthy token)
      then Sent 401 (JError "Access denied. No token provided." None)
      else
        match jwt_verify P token (now env) with
        | JwtPayload (ValidId userId) =>
            (* User.findById(decoded.userId).select('-password') *)
            match option_map User.withoutPassword (findOne (hasUserId userId) (users db)) with
            | None => Sent 401 (JError "Invalid token. User not found or inactive." None)
            | Some user =>
                if negb (User.isActive user)
                then Sent 401 (JError "Invalid token. User not found or inactive." None)
                else Next user
            end
        | JwtPayload (InvalidId _) => Sent 500 (JError "Token verification failed." None)
        | JsonWebTokenError => Sent 401 (JError "Invalid token." None)
        | TokenExpiredError => Sent 401 (JError "Token expired." None)
        | NotBeforeError => Sent 500 (JError "Token verification failed." None)
        end
  end.

(** [adminAuth], lines 143-162. *)
Definition adminAuth (env : Env) (authorization : option string) (db : DB) : Outcome :=
  match auth env authorization db with
  | Next user =>
      if negb (User.role user =? "admin")
      then Sent 403 (JError "Access denied. Admin privileges required." None)
      else Next user
  | o => o
  end.

(** ** middleware/security.js: [commonValidations] *)

(** [handleValidationErrors], lines 57-64: the messages of the failed
    validators, joined. *)
Definition handleValidationErrors {A : Type} (errors : list (option string)) (sanitized : A)
  : Error + A :=
  match collect errors with
  | [] => inr sanitized
  | messages => inl (ValidationError (join ", " messages))
  end.

Definition lengthBetween (lo hi : nat) (s : string) : bool :=
  (lo <=? String.length s)%nat && (String.length s <=? hi)%nat.

(** [/^[a-zA-Z0-9_]+$/] *)
Definition usernamePattern : Regex.t := Regex.Plus (Regex.Class Regex.word).

(** [/^(?=.*[a-z])(?=.*[A-Z])(?=.*\d)/] *)
Definition passwordPattern (s : string) : bool :=
  let line := Regex.firstLine s in
  Regex.anyChar Regex.lower line && Regex.anyChar Regex.upper line
  && Regex.anyChar Regex.digit line.

(** [commonValidations.userRegister], lines 69-87. *)
Definition userRegister (body : RegisterBody.t) : Error + Registration.t :=
  let username := JS.trim (withDefault (RegisterBody.username body) EmptyString) in
  let email := JS.trim (withDefault (RegisterBody.email body) EmptyString) in
  let password := withDefault (RegisterBody.password body) EmptyString in
  handleValidationErrors
    [ check (lengthBetween 3 30 username) "Username must be between 3 and 30 characters";
      check (Regex.matches usernamePattern username)
            "Username can only contain letters, numbers, and underscores";
      check (isEmail P email) "Please provide a valid email address";
      check (6 <=? String.length password)%nat "Password must be at least 6 characters long";
      check (passwordPattern password)
            "Password must contain at least one lowercase letter, one uppercase letter, and one number" ]
    (Registration.mk username (normalizeEmail P email) password (RegisterBody.role body)).

(** [commonValidations.userLogin], lines 89-99. *)
Definition userLogin (body : LoginBody.t) : Error + Credentials.t :=
  let email := JS.trim (withDefault (LoginBody.email body) EmptyString) in
  let password := withDefault (LoginBody.password body) EmptyString in
  handleValidationErrors
    [ check (isEmail P email) "Please provide a valid email address";
      check (JS.truthy password) "Password is required" ]
    (Credentials.mk (normalizeEmail P email) password).

(** [isFloat({ min: 0 })] and [isInt({ min: 0 })] of validator.js read the
    text [String(v)] of the number: the text of a finite number is a float
    literal ([NaN] and [Infinity] are none); it is an integer literal for an
    integer below 1e21 (from there on [String(v)] has an exponent). Both
    then compare the number with 0. *)
Definition floatMin0 (x : float) : bool := is_finite x && (0 <=? x)%float.

Definition intMin0 (x : float) : bool :=
  JS.isInteger x && (abs x <? 1e21)%float && (0 <=? x)%float.

Definition isFloatMin0 (v : option float) : bool :=
  match v with
  | Some x => floatMin0 x
  | None => false
  end.

Definition isIntMin0 (v : option float) : bool :=
  match v with
  | Some x => intMin0 x
  | None => false
  end.

(** [commonValidations.productCreate], lines 102-115. *)
Definition productCreate (body : ProductBody.t) : Error + ProductBody.t :=
  let name := JS.trim (withDefault (ProductBody.name body) EmptyString) in
  handleValidationErrors
    [ check (lengthBetween 2 100 name) "Product name must be between 2 and 100 characters";
      check (isFloatMin0 (ProductBody.price body)) "Price must be a positive number";
      check (isIntMin0 (ProductBody.quantity body)) "Quantity must be a non-negative integer" ]
    (ProductBody.setName (Some (escape P name)) body).

(** [commonValidations.productUpdate], lines 117-133. *)
Definition productUpdate (body : ProductBody.t) : Error + ProductBody.t :=
  let name := option_map JS.trim (ProductBody.name body) in
  handleValidationErrors
    [ optional name (fun s =>
        check (lengthBetween 2 100 s) "Product name must be between 2 and 100 characters");
      optional (ProductBody.price body) (fun q =>
        check (floatMin0 q) "Price must be a positive number");
      optional (ProductBody.quantity body) (fun q =>
        check (intMin0 q) "Quantity must be a non-negative integer") ]
    (ProductBody.setName (option_map (escape P) name) body).

(** [commonValidations.quantityUpdate], lines 136-145. *)
Definition quantityUpdate (body : QuantityBody.t) : Error + QuantityBody.t :=
  handleValidationErrors
    [ check (isFloatMin0 (QuantityBody.quantity body)) "Quantity must be a non-negative number";
      optional (QuantityBody.operation body) (fun s =>
        check ((s =? "add") || (s =? "subtract") || (s =? "set"))
              "Operation must be one of: add, subtract, set") ]
    body.

(** [sanitizeInput], lines 34-54, on the query string (the body is not
    parsed yet where [server.js] mounts [securityMiddleware]). *)
Definition sanitizeInput (q : ListQuery.t) : ListQuery.t :=
  ListQuery.mk (ListQuery.page q) (ListQuery.limit q)
    (option_map JS.trim (ListQuery.category q))
    (option_map JS.trim (ListQuery.search q))
    (ListQuery.minPrice q) (ListQuery.maxPrice q)
    (option_map JS.trim (ListQuery.stockStatus q))
    (option_map JS.trim (ListQuery.sortBy q))
    (option_map JS.trim (ListQuery.sortOrder q)).

(** ** controllers/auth.js *)

(** [generateToken], lines 48-54. *)
Definition generateToken (env : Env) (userId : ObjectId) : string :=
  jwt_sign P userId (now env).

(** The unique indexes of the users collection: [_id], [username], [email]. *)
Definition userKeyTaken (u : User.t) (db : DB) : bool :=
  existsb (fun v => hasUserId (User._id u) v
                    || (User.username v =? User.username u)
                    || (User.email v =? User.email u)) (users db).

(** [register], lines 82-131. *)
Definition register (env : Env) (body : Registration.t) (db : DB) : DB * Outcome :=
  let username := Registration.username body in
  let email := Registration.email body in
  let password := Registration.password body in
  let role := Registration.role body in
  (* User.findOne({ $or: [{ email }, { username }] }) *)
  match findOne (fun u => (User.email u =? email) || (User.username u =? username))
          (scanOrder env (users db)) with
  | Some existingUser =>
      (db, Threw (ConflictError
                    (if User.email existingUser =? email
                     then "Email is already registered"
                     else "Username is already taken")))
  | None =>
      let user :=
        User.mk (newId env) (User.setUsername username) (User.setEmail email) (Some password)
          (JS.orDefault role "user") true (now env) (now env) in
      match User.validate user with
      | [] =>
          (* pre('save'): the password is hashed before the insert *)
          let saved :=
            User.mk (User._id user) (User.username user) (User.email user)
              (Some (bcrypt_hash P (salt env) password))
              (User.role user) (User.isActive user) (User.createdAt user) (User.updatedAt user) in
          if userKeyTaken saved db
          then (db, Threw duplicateKey)
          else (withUsers (users db ++ [saved]) db,
                Sent 201 (JUser "success" "User registered successfully" (User.toJSON saved)
                            (Some (generateToken env (User._id saved)))))
      | errors => (db, Threw (MongooseValidationError errors))
      end
  end.

(** [login], lines 155-201. *)
Definition login (env : Env) (body : Credentials.t) (db : DB) : DB * Outcome :=
  let email := Credentials.email body in
  let password := Credentials.password body in
  match findOne (fun u => User.email u =? email) (users db) with
  | None => (db, Threw (AuthenticationError "Email or password is incorrect"))
  | Some user =>
      if negb (User.isActive user)
      then (db, Threw (AuthenticationError
                         "Your account has been disabled. Please contact administrator."))
      else
        match User.password user with
        | None => (db, Threw (BcryptError "Illegal arguments: string, undefined"))
        | Some hash =>
            (* user.comparePassword(password) *)
            if negb (bcrypt_compare P password hash)
            then (db, Threw (AuthenticationError "Email or password is incorrect"))
            else (db, json (JUser "success" "Login successful" (User.toJSON user)
                              (Some (generateToken env (User._id user)))))
        end
  end.

(** ** routes/auth.js and routes/product.js *)

(** A validator chain in front of a handler. *)
Definition validated {A : Type} (v : Error + A) (db : DB) (handler : A -> DB * Outcome)
  : DB * Outcome :=
  match v with
  | inl e => (db, Threw e)
  | inr body => handler body
  end.

Definition productRoutes (env : Env) (user : User.t) (request : ProductRequest) (db : DB)
  : DB * Outcome :=
  match request with
  | PostProduct body =>
      validated (productCreate body) db (fun b => createProduct env user b db)
  | GetProducts query => getProducts user (sanitizeInput query) db
  | GetStats => getInventoryStats user db
  | GetProductById id => getProduct user id db
  | PutProduct id body =>
      validated (productUpdate body) db (fun b => updateProduct env user id b db)
  | DeleteProduct id => deleteProduct env user id db
  | PatchQuantity id body =>
      validated (quantityUpdate body) db (fun b => updateQuantity env user id b db)
  end.

Definition api (env : Env) (request : Request) (db : DB) : DB * Outcome :=
  match request with
  | PostRegister body => validated (userRegister body) db (fun b => register env b db)
  | PostLogin body => validated (userLogin body) db (fun b => login env b db)
  | Products authorization r =>
      match auth env authorization db with
      | Next user => productRoutes env user r db
      | o => (db, o)
      end
  end.

(** The store after a sequence of requests, each with its environment. *)
Fixpoint run (trace : list (Env * Request)) (db : DB) : DB :=
  match trace with
  | [] => db
  | (env, request) :: rest => run rest (fst (api env request db))
  end.

End Controllers.

(** ** A concrete platform, to run the handlers on examples

    Tokens are the text [jwt.<decimal user id>]; the text [expired] stands
    for a token past its expiry. A hash is the salt, a dollar sign and the
    password. Patterns are literal, case-insensitive substrings. *)

Module Demo.

Fixpoint contains (needle s : string) : bool :=
  prefix needle s
  || match s with
     | EmptyString => false
     | String _ s' => contains needle s'
     end.

Definition regexTest (pattern subject : string) : bool :=
  contains (JS.toLowerCase pattern) (JS.toLowerCase subject).

Definition digitOf (c : ascii) : option N :=
  let n := N_of_ascii c in
  if ((48 <=? n) && (n <=? 57))%N then Some (n - 48)%N else None.

Fixpoint parseDecimal (acc : N) (s : string) : option N :=
  match s with
  | EmptyString => Some acc
  | String c s' =>
      match digitOf c with
      | Some d => parseDecimal (10 * acc + d)%N s'
      | None => None
      end
  end.

Fixpoint digits (fuel : nat) (n : N) (acc : string) : string :=
  match fuel with
  | O => acc
  | S fuel' =>
      let acc' := String (ascii_of_N (48 + n mod 10)%N) acc in
      if (n <? 10)%N then acc' else digits fuel' (n / 10)%N acc'
  end.

Definition decimal (n : N) : string := digits (S (N.to_nat (N.log2 n))) n EmptyString.

Definition jwt_sign (userId : ObjectId) (now : Z) : string := ("jwt." ++ decimal userId)%string.

Definition jwt_verify (token : string) (now : Z) : JwtResult :=
  if token =? "expired" then TokenExpiredError
  else if prefix "jwt." token
  then match JS.dropChars 4 token with
       | EmptyString => JsonWebTokenError
       | payload =>
           match parseDecimal 0 payload with
           | Some n => JwtPayload (ValidId n)
           | None => JsonWebTokenError
           end
       end
  else JsonWebTokenError.

Definition bcrypt_hash (salt password : string) : string := (salt ++ "$" ++ password)%string.

Definition bcrypt_compare (candidate hash : string) : bool :=
  JS.dropChars (String.length hash - String.length candidate - 1) hash
  =? ("$" ++ candidate)%string.

Definition isEmail (s : string) : bool := Regex.matches User.emailMatch s.

Definition normalizeEmail (s : string) : string := JS.toLowerCase s.

Fixpoint escape (s : string) : string :=
  match s with
  | EmptyString => EmptyString
  | String c s' =>
      ((if Regex.code 38 c then "&amp;"
        else if Regex.code 60 c then "&lt;"
        else if Regex.code 62 c then "&gt;"
        else String c EmptyString) ++ escape s')%string
  end.

Definition platform : Platform :=
  Build_Platform regexTest jwt_sign jwt_verify bcrypt_hash bcrypt_compare
    isEmail normalizeEmail escape.

End Demo.

(** ** Example data *)

Module Example.

Definition env (t : Z) (id : ObjectId) : Env :=
  {| now := t; newId := id; salt := "salt"; scanRank := fun _ => 0%N |}.

Definition registration (username email : string) (role : option string) : RegisterBody.t :=
  RegisterBody.mk (Some username) (Some email) (Some "Password123") role.

Definition alice : RegisterBody.t := registration "alice" "alice@example.com" None.
Definition bob : RegisterBody.t := registration "bob" "bob@example.com" None.

(** The store after alice (id 1) and bob (id 2) have registered. *)
Definition twoUsers : DB :=
  run Demo.platform [ (env 100 1%N, PostRegister alice); (env 200 2%N, PostRegister bob) ] emptyDB.

Definition aliceToken : option string := Some "Bearer jwt.1".
Definition bobToken : option string := Some "Bearer jwt.2".

(** The users as [auth] attaches them to a request. *)
Definition aliceUser : User.t :=
  User.mk 1%N "alice" "alice@example.com" None "user" true 100 100.
Definition bobUser : User.t :=
  User.mk 2%N "bob" "bob@example.com" None "user" true 200 200.

(** The body of the README and of the test suite. *)
Definition laptopBasic : ProductBody.t :=
  ProductBody.mk (Some "Laptop") None None None (Some 999.99%float) None (Some 10%float)
    None None None None None None None.

(** The same product with every path the schema requires. *)
Definition laptopFull : ProductBody.t :=
  ProductBody.mk (Some "Laptop") (Some "A portable computer") (Some "lap-001")
    (Some "Electronics") (Some 999.99%float) (Some 700%float) (Some 10%float)
    None None (Some "pieces") None None None None.


(** The laptop as stored for alice under id 10. *)
Definition laptop : Product.t :=
  Product.mk 10%N "Laptop" "A portable computer" "LAP-001" "Electronics"
    999.99%float 700%float 10%float 0%float None "pieces" None None true 1%N 300 300.

(** The laptop once deleted at time 400. *)
Definition deletedLaptop : Product.t :=
  Product.setUpdatedAt 400 (Product.setIsActive false laptop).

Definition aliceRef : UserRef.t := UserRef.mk 1%N "alice" "alice@example.com".


(** Alice has created the laptop (product id 10). *)
Definition withLaptop : DB :=
  run Demo.platform [ (env 300 10%N, Products aliceToken (PostProduct laptopFull)) ] twoUsers.

(** Alice has then set the quantity of the laptop to 2^53. *)
Definition manyLaptops : DB :=
  run Demo.platform
    [ (env 500 12%N,
       Products aliceToken
         (PatchQuantity (ValidId 10%N)
            (QuantityBody.mk (Some 9007199254740992%float) (Some "set")))) ]
    withLaptop.

(** Alice has then pointed the laptop's [createdBy] at an id no user has. *)
Definition ownerUnknown : DB :=
  run Demo.platform
    [ (env 350 11%N,
       Products aliceToken
         (PutProduct (ValidId 10%N) (ProductBody.setCreatedBy (Some 77%N) ProductBody.empty))) ]
    withLaptop.

(** ... and then deleted it. *)
Definition laptopDeleted : DB :=
  run Demo.platform [ (env 400 11%N, Products aliceToken (DeleteProduct (ValidId 10%N))) ]
    withLaptop.

End Example.

(** ** Vocabulary of the properties *)






(** Every stored product passes the schema's validators. *)
Definition validStore (db : DB) : Prop :=
  Forall (fun p => Product.validate p = []) (products db).

(** The [_id] index of the products collection: no two documents share an id. *)
Definition uniqueIds (db : DB) : Prop := NoDup (map Product._id (products db)).


Definition statsOf (o : Outcome) : option Stats.t :=
  match o with
  | Sent _ (JStats _ stats _) => Some stats
  | _ => None
  end.


(** * Properties *)

(** ** The building blocks on small inputs *)

Example trim_strips_both_ends : JS.trim "  ab c  " = "ab c".
Proof. reflexivity. Qed.

Example replace_first_occurrence_only :
  JS.replace "Bearer " EmptyString "Bearer xBearer y" = "xBearer y".
Proof. reflexivity. Qed.

Example bearer_header_without_token : bearerToken "Bearer " = EmptyString.
Proof. reflexivity. Qed.

Example ceil_of_quotient :
  JS.Math_ceil_div 3 2 = Some 2%Z /\ JS.Math_ceil_div 4 2 = Some 2%Z
  /\ JS.Math_ceil_div 3 0 = None.
Proof. repeat split. Qed.

Example username_pattern :
  Regex.matches usernamePattern "john_doe1" = true
  /\ Regex.matches usernamePattern "john doe" = false
  /\ Regex.matches usernamePattern EmptyString = false.
Proof. repeat split. Qed.

Example email_pattern_of_the_schema :
  Regex.matches User.emailMatch "john.doe@example.com" = true
  /\ Regex.matches User.emailMatch "a@b.co.uk" = true
  /\ Regex.matches User.emailMatch "a@b.info" = false
  /\ Regex.matches User.emailMatch "a..b@example.com" = false.
Proof. repeat split; vm_compute; reflexivity. Qed.

Example password_pattern :
  passwordPattern "Password123" = true /\ passwordPattern "password123" = false.
Proof. repeat split. Qed.

(** The examples of the specification: 10 + 5 = 15, and 10 - 15 clamps to 0;
    and two sums in double precision. *)
Example quantity_operations :
  newQuantity "add" 10 5 = 15%float /\ newQuantity "subtract" 10 15 = 0%float
  /\ newQuantity "subtract" 10 3 = 7%float /\ newQuantity "set" 10 20 = 20%float
  /\ newQuantity "add" 0.1 0.2 = 0.30000000000000004%float
  /\ newQuantity "add" 9007199254740992 1 = 9007199254740992%float.
Proof. repeat split; vm_compute; reflexivity. Qed.

(** [isInt] and [isFloat] of the route validators on numbers. *)
Example number_validators :
  intMin0 10 = true /\ intMin0 10.5 = false /\ intMin0 (-1) = false
  /\ intMin0 1e21 = false /\ floatMin0 10.5 = true /\ floatMin0 infinity = false
  /\ floatMin0 (-0.5) = false.
Proof. repeat split; vm_compute; reflexivity. Qed.

Example stock_status_of_the_laptop :
  Product.stockStatus Example.laptop = "in-stock"
  /\ Product.stockStatus (Product.setQuantity 0 Example.laptop) = "out-of-stock".
Proof. repeat split. Qed.

(** ** Lists and collections *)

Lemma findOne_Some {A : Type} (f : A -> bool) (l : list A) (x : A) :
  findOne f l = Some x -> In x l /\ f x = true.
Proof. unfold findOne. apply find_some. Qed.

Lemma findOne_None {A : Type} (f : A -> bool) (l : list A) :
  findOne f l = None -> forall x, In x l -> f x = false.
Proof. unfold findOne. apply find_none. Qed.


Lemma hasProductId_true (id : ObjectId) (p : Product.t) :
  hasProductId id p = true <-> Product._id p = id.
Proof. unfold hasProductId. apply N.eqb_eq. Qed.

Lemma hasUserId_true (id : ObjectId) (u : User.t) :
  hasUserId id u = true <-> User._id u = id.
Proof. unfold hasUserId. apply N.eqb_eq. Qed.

(** Replacing the document found under [id'] by one with the same id:
    a lookup of [id'] now finds the replacement, every other lookup is
    unchanged. *)
Lemma findOne_updateOne (id id' : ObjectId) (doc old : Product.t) (l : list Product.t) :
  findOne (hasProductId id') l = Some old ->
  Product._id doc = id' ->
  findOne (hasProductId id) (updateOne (hasProductId id') (fun _ => doc) l)
  = if (id =? id')%N then Some doc else findOne (hasProductId id) l.
Proof.
  intros Hfind Hdoc. unfold findOne in *.
  induction l as [|x l IH]; simpl in *; [discriminate|].
  destruct (hasProductId id' x) eqn:Hx.
  - apply hasProductId_true in Hx. simpl. unfold hasProductId at 1 3.
    rewrite Hdoc, Hx. destruct (id' =? id)%N eqn:E.
    + apply N.eqb_eq in E. subst id. now rewrite N.eqb_refl.
    + rewrite N.eqb_sym, E. reflexivity.
  - simpl. destruct (hasProductId id x) eqn:Hy.
    + destruct (id =? id')%N eqn:E; [|reflexivity].
      apply N.eqb_eq in E. subst id'. congruence.
    + apply IH, Hfind.
Qed.

Lemma updateOne_ids (id : ObjectId) (doc : Product.t) (l : list Product.t) :
  Product._id doc = id ->
  map Product._id (updateOne (hasProductId id) (fun _ => doc) l) = map Product._id l.
Proof.
  intros Hdoc. induction l as [|x l IH]; simpl; [reflexivity|].
  destruct (hasProductId id x) eqn:Hx; simpl.
  - apply hasProductId_true in Hx. congruence.
  - now rewrite IH.
Qed.

Lemma collect_nil (l : list (option string)) :
  collect l = [] <-> forall o, In o l -> o = None.
Proof.
  induction l as [|[m|] l IH]; simpl.
  - split; [intros _ o []|reflexivity].
  - split; [discriminate|]. intros H. specialize (H (Some m) (or_introl eq_refl)). discriminate.
  - rewrite IH. split.
    + intros H o [<-|Ho]; auto.
    + intros H o Ho. apply H. now right.
Qed.

Lemma In_insertBy {A : Type} (le : A -> A -> bool) (x y : A) (l : list A) :
  In y (insertBy le x l) <-> y = x \/ In y l.
Proof.
  induction l as [|z l IH]; simpl.
  - split; [intros [<-|[]]; now left|intros [->|[]]; now left].
  - destruct (le x z); simpl.
    + split; [intros [<-|H]; auto|intros [->|H]; auto].
    + rewrite IH. split; [intros [<-|[->|H]]; auto|intros [->|[<-|H]]; auto].
Qed.

Lemma In_insertionSort {A : Type} (le : A -> A -> bool) (y : A) (l : list A) :
  In y (insertionSort le l) <-> In y l.
Proof.
  induction l as [|x l IH]; simpl; [reflexivity|].
  rewrite In_insertBy, IH. split; [intros [->|H]; auto|intros [<-|H]; auto].
Qed.

Lemma In_sortProducts (field : string) (direction : Z) (p : Product.t) (l : list Product.t) :
  In p (sortProducts field direction l) <-> In p l.
Proof. unfold sortProducts. destruct (direction =? 1)%Z; apply In_insertionSort. Qed.



Lemma In_skipDocs {A : Type} (n : Z) (x : A) (l : list A) : In x (skipDocs n l) -> In x l.
Proof.
  unfold skipDocs. generalize (Z.to_nat n) as k. intros k. revert l.
  induction k as [|k IH]; intros [|y l]; simpl; auto.
Qed.

Lemma In_limitDocs {A : Type} (n : Z) (x : A) (l : list A) : In x (limitDocs n l) -> In x l.
Proof.
  unfold limitDocs. destruct (n =? 0)%Z; [auto|].
  generalize (Z.abs_nat n) as k. intros k. revert l.
  induction k as [|k IH]; intros [|y l]; simpl; try tauto.
  intros [H|H]; [now left|right; now apply IH].
Qed.

(** ** Binary64 arithmetic

    What the handlers need of IEEE 754 addition, subtraction and
    comparison, from the specification of the primitive operations
    ([SpecFloat], [FloatAxioms]). *)

Lemma iter_pos_invariant {A : Type} (f : A -> A) (Inv : A -> Prop) :
  (forall x, Inv x -> Inv (f x)) -> forall p x, Inv x -> Inv (iter_pos f p x).
Proof.
  intros Hf. induction p as [p IH|p IH|]; intros x Hx; cbn; auto.
Qed.

Lemma shr_1_nonneg (mrs : shr_record) : (0 <= shr_m mrs)%Z -> (0 <= shr_m (shr_1 mrs))%Z.
Proof.
  destruct mrs as [m r s]. cbn. destruct m as [|[p|p|]|[p|p|]]; cbn; lia.
Qed.

Lemma shr_fexp_nonneg (m e : Z) (l : location) :
  (0 <= m)%Z -> (0 <= shr_m (fst (shr_fexp prec emax m e l)))%Z.
Proof.
  intros Hm. unfold shr_fexp, shr.
  assert (0 <= shr_m (shr_record_of_loc m l))%Z as H0.
  { destruct l as [|[]]; exact Hm. }
  destruct (fexp prec emax (Zdigits2 m + e) - e)%Z; cbn [fst]; auto.
  apply (iter_pos_invariant shr_1 (fun mrs => (0 <= shr_m mrs)%Z)); auto.
  apply shr_1_nonneg.
Qed.

Lemma round_nearest_even_nonneg (m : Z) (l : location) :
  (0 <= m)%Z -> (0 <= round_nearest_even m l)%Z.
Proof.
  intros Hm. destruct l as [|[]]; cbn; try lia. destruct (Z.even m); lia.
Qed.

(** Rounding never gives NaN, and keeps the sign it is given. *)
Lemma binary_round_aux_signed (sx : bool) (mx ex : Z) (lx : location) :
  (0 <= mx)%Z -> Double.signed sx (binary_round_aux prec emax sx mx ex lx).
Proof.
  intros Hm. unfold binary_round_aux.
  pose proof (shr_fexp_nonneg mx ex lx Hm) as H1.
  destruct (shr_fexp prec emax mx ex lx) as [mrs' e']. cbn [fst] in H1.
  pose proof (shr_fexp_nonneg (round_nearest_even (shr_m mrs') (loc_of_shr_record mrs')) e'
                loc_Exact (round_nearest_even_nonneg _ _ H1)) as H2.
  destruct (shr_fexp prec emax _ e' loc_Exact) as [mrs'' e'']. cbn [fst] in H2.
  destruct (shr_m mrs'') as [|p|p]; [reflexivity| |exfalso; lia].
  destruct (e'' <=? emax - prec)%Z; reflexivity.
Qed.

Lemma binary_round_signed (sx : bool) (mx : positive) (ex : Z) :
  Double.signed sx (binary_round prec emax sx mx ex).
Proof.
  unfold binary_round. destruct (shl_align mx ex _) as [mz ez].
  apply binary_round_aux_signed. lia.
Qed.

Lemma binary_normalize_signed (m e : Z) (szero : bool) :
  Double.signed (if (m =? 0)%Z then szero else (m <? 0)%Z) (binary_normalize prec emax m e szero).
Proof.
  destruct m as [|p|p]; cbn; [reflexivity| |]; apply binary_round_signed.
Qed.

Lemma signed_false_nonneg (x : spec_float) : Double.signed false x -> Double.nonneg x.
Proof. destruct x as [s|s| |s m e]; cbn; try tauto; intros ->; exact I. Qed.

Lemma signed_true_nonpos (x : spec_float) : Double.signed true x -> Double.nonpos x.
Proof. destruct x as [s|s| |s m e]; cbn; try tauto; intros ->; exact I. Qed.

Lemma signed_not_nan (s : bool) (x : spec_float) : Double.signed s x -> x <> S754_nan.
Proof. destruct x; cbn; congruence || tauto. Qed.

(** The sum of two values that are at least zero is at least zero. *)
Lemma SFadd_nonneg (x y : spec_float) : Double.nonneg x -> Double.nonneg y -> Double.nonneg (SF64add x y).
Proof.
  destruct x as [sx|[]| |[] mx ex], y as [sy|[]| |[] my ey]; cbn; try tauto.
  - intros _ _. now destruct sx, sy.
  - intros _ _. apply signed_false_nonneg.
    apply (binary_normalize_signed (Zpos _ + Zpos _) _ false).
Qed.

(** Digits of a mantissa. *)
Lemma digits2_pos_bounds (m : positive) :
  (2 ^ (Zpos (digits2_pos m) - 1) <= Zpos m < 2 ^ Zpos (digits2_pos m))%Z.
Proof.
  induction m as [m IH|m IH|]; cbn [digits2_pos].
  - rewrite Pos2Z.inj_succ.
    replace (Z.succ (Zpos (digits2_pos m)) - 1)%Z with (Z.succ (Zpos (digits2_pos m) - 1)) by lia.
    rewrite !Z.pow_succ_r by lia. lia.
  - rewrite Pos2Z.inj_succ.
    replace (Z.succ (Zpos (digits2_pos m)) - 1)%Z with (Z.succ (Zpos (digits2_pos m) - 1)) by lia.
    rewrite !Z.pow_succ_r by lia. lia.
  - cbn. lia.
Qed.

Lemma iter_xO (m d : positive) : Zpos (Pos.iter xO m d) = (Zpos m * 2 ^ Zpos d)%Z.
Proof.
  induction d as [|d IH] using Pos.peano_ind.
  - cbn. lia.
  - rewrite Pos.iter_succ, Pos2Z.inj_xO, IH, Pos2Z.inj_succ, Z.pow_succ_r by lia. lia.
Qed.

Lemma shl_align_fst (m : positive) (e e' : Z) :
  (e' <= e)%Z -> Zpos (fst (shl_align m e e')) = (Zpos m * 2 ^ (e - e'))%Z.
Proof.
  intros H. unfold shl_align. destruct (e' - e)%Z as [|d|d] eqn:E; cbn [fst].
  - replace (e - e')%Z with 0%Z by lia. cbn. lia.
  - lia.
  - rewrite iter_xO. f_equal. f_equal. lia.
Qed.

(** A canonical mantissa has at most 53 digits, and exactly 53 above the
    least exponent. *)
Lemma valid_finite (s : bool) (m : positive) (e : Z) :
  valid_binary (S754_finite s m e) = true ->
  (-1074 <= e)%Z /\ (Zpos (digits2_pos m) <= 53)%Z
  /\ ((-1074 < e)%Z -> Zpos (digits2_pos m) = 53%Z).
Proof.
  cbn. unfold bounded, canonical_mantissa, fexp, SpecFloat.emin, prec, emax.
  intros H. apply andb_true_iff in H. destruct H as [H _]. apply Z.eqb_eq in H. lia.
Qed.

(** The order of two canonical positive values is the order of their
    aligned mantissas. *)
Lemma compare_Lt_aligned (m1 m2 : positive) (e1 e2 : Z) :
  valid_binary (S754_finite false m1 e1) = true ->
  valid_binary (S754_finite false m2 e2) = true ->
  SFcompare (S754_finite false m1 e1) (S754_finite false m2 e2) = Some Lt ->
  (Zpos (fst (shl_align m1 e1 (Z.min e1 e2))) < Zpos (fst (shl_align m2 e2 (Z.min e1 e2))))%Z.
Proof.
  intros H1 H2 Hlt. apply valid_finite in H1, H2.
  destruct H1 as [Hmin1 [Hd1 _]], H2 as [Hmin2 [_ Hd2]].
  rewrite !shl_align_fst by lia. cbn in Hlt.
  destruct (e1 ?= e2)%Z eqn:E.
  - apply Z.compare_eq in E. subst e2. rewrite Z.min_id, Z.sub_diag, Z.pow_0_r.
    injection Hlt as Hlt. change ((m1 ?= m2)%positive = Lt) in Hlt.
    assert (m1 < m2)%positive as Hlt' by exact Hlt. lia.
  - assert (e1 < e2)%Z as E' by exact E. rewrite Z.min_l by lia. rewrite Z.sub_diag, Z.pow_0_r.
    specialize (Hd2 ltac:(lia)).
    pose proof (digits2_pos_bounds m1) as B1. pose proof (digits2_pos_bounds m2) as B2.
    rewrite Hd2 in B2.
    assert (2 ^ Zpos (digits2_pos m1) <= 2 ^ 53)%Z by (apply Z.pow_le_mono_r; lia).
    assert (2 ^ 1 <= 2 ^ (e2 - e1))%Z by (apply Z.pow_le_mono_r; lia).
    change (2 ^ (53 - 1))%Z with 4503599627370496%Z in B2.
    change (2 ^ 53)%Z with 9007199254740992%Z in *.
    change (2 ^ 1)%Z with 2%Z in *. nia.
  - discriminate.
Qed.

(** A difference of values that are at least zero is NaN only for
    infinity minus infinity. *)
Lemma SFsub_number (x y : spec_float) :
  Double.nonneg x -> Double.nonneg y -> (forall s, y <> S754_infinity s) -> SF64sub x y <> S754_nan.
Proof.
  destruct x as [sx|[]| |[] mx ex], y as [sy|[]| |[] my ey]; cbn; try tauto; try discriminate;
    intros _ _ Hy; try (now destruct sx, sy); try (now destruct sx);
    try (exfalso; now apply (Hy false)).
  apply (signed_not_nan _ _ (binary_normalize_signed (Zpos _ - Zpos _) _ false)).
Qed.

(** Subtracting the larger from the smaller gives at most zero. *)
Lemma SFsub_lt_nonpos (x y : spec_float) :
  valid_binary x = true -> valid_binary y = true ->
  Double.nonneg x -> Double.nonneg y -> SFltb x y = true -> Double.nonpos (SF64sub x y).
Proof.
  unfold SFltb.
  destruct x as [sx|[]| |[] mx ex], y as [sy|[]| |[] my ey]; cbn [Double.nonneg]; try tauto;
    intros Hx Hy _ _ Hlt; try discriminate; try exact I.
  destruct (SFcompare (S754_finite false mx ex) (S754_finite false my ey)) as [[]|] eqn:E;
    try discriminate.
  pose proof (compare_Lt_aligned mx my ex ey Hx Hy E) as Haligned.
  apply signed_true_nonpos. unfold SF64sub, SFsub. cbn [cond_Zopp].
  pose proof (binary_normalize_signed
                (Zpos (fst (shl_align mx ex (Z.min ex ey)))
                 - Zpos (fst (shl_align my ey (Z.min ex ey)))) (Z.min ex ey) false) as H.
  destruct (_ - _ =? 0)%Z eqn:E0; [apply Z.eqb_eq in E0; lia|].
  destruct (_ - _ <? 0)%Z eqn:E1; [exact H|apply Z.ltb_ge in E1; lia].
Qed.

Lemma SFcompare_antisym (x y : spec_float) :
  SFcompare y x = option_map CompOpp (SFcompare x y).
Proof.
  destruct x as [sx|sx| |sx mx ex], y as [sy|sy| |sy my ey]; cbn;
    try reflexivity; try (now destruct sx); try (now destruct sy); try (now destruct sx, sy).
  destruct sx, sy; cbn; try reflexivity; f_equal.
  - rewrite (Z.compare_antisym ey ex). destruct (ey ?= ex)%Z; cbn; try reflexivity.
    change (CompOpp (my ?= mx)%positive = CompOpp (CompOpp (mx ?= my)%positive)).
    now rewrite (Pos.compare_antisym my mx), !CompOpp_involutive.
  - rewrite (Z.compare_antisym ey ex). destruct (ey ?= ex)%Z; cbn; try reflexivity.
    change ((my ?= mx)%positive = CompOpp (mx ?= my)%positive).
    now rewrite (Pos.compare_antisym my mx), CompOpp_involutive.
Qed.

Lemma SFcompare_refl (x : spec_float) : x <> S754_nan -> SFcompare x x = Some Eq.
Proof.
  destruct x as [s|s| |s m e]; cbn; try congruence; intros _; try (now destruct s).
  destruct s; rewrite Z.compare_refl; f_equal;
    change (Pos.compare_cont Eq m m) with (m ?= m)%positive;
    now rewrite Pos.compare_refl.
Qed.

Section DoubleOps.

Local Open Scope float_scope.

Lemma Prim2SF_zero : Prim2SF 0 = S754_zero false.
Proof. reflexivity. Qed.

Lemma double_is_nan_spec (x : float) : is_nan x = true <-> Prim2SF x = S754_nan.
Proof.
  unfold is_nan. rewrite eqb_spec. unfold SFeqb. split.
  - intros H. destruct (Prim2SF x) eqn:E; try reflexivity;
      rewrite SFcompare_refl in H by discriminate; discriminate.
  - intros ->. reflexivity.
Qed.

Lemma double_is_nan_false (x : float) : is_nan x = false <-> Prim2SF x <> S754_nan.
Proof.
  rewrite <- double_is_nan_spec. destruct (is_nan x); split; congruence.
Qed.

Lemma double_leb_0_nonneg (x : float) : (0 <=? x) = true <-> Double.nonneg (Prim2SF x).
Proof.
  rewrite leb_spec, Prim2SF_zero. unfold SFleb.
  destruct (Prim2SF x) as [s|[]| |[] m e]; cbn; split; try tauto; try discriminate; auto.
Qed.

Lemma double_ltb_0_nonpos (x : float) : Double.nonpos (Prim2SF x) -> (0 <? x) = false.
Proof.
  rewrite ltb_spec, Prim2SF_zero. unfold SFltb.
  destruct (Prim2SF x) as [s|[]| |[] m e]; cbn; tauto.
Qed.

Lemma double_is_infinity_false (x : float) :
  is_infinity x = false -> forall s, Prim2SF x <> S754_infinity s.
Proof.
  unfold is_infinity. rewrite eqb_spec, abs_spec. intros H s E. rewrite E in H.
  cbn in H. discriminate.
Qed.

(** [a < b] gives [a <= b]. *)
Lemma double_ltb_leb (a b : float) : (a <? b) = true -> (a <=? b) = true.
Proof.
  rewrite ltb_spec, leb_spec. unfold SFltb, SFleb.
  now destruct (SFcompare (Prim2SF a) (Prim2SF b)) as [[]|].
Qed.


(** The sum of two numbers that are at least zero is at least zero. *)
Lemma double_add_nonneg (a b : float) :
  (0 <=? a) = true -> (0 <=? b) = true -> (0 <=? a + b) = true.
Proof.
  rewrite !double_leb_0_nonneg, add_spec. apply SFadd_nonneg.
Qed.

(** A difference of numbers that are at least zero, the second finite,
    is not NaN. *)
Lemma double_sub_number (a b : float) :
  (0 <=? a) = true -> (0 <=? b) = true -> is_infinity b = false -> is_nan (a - b) = false.
Proof.
  rewrite !double_leb_0_nonneg, double_is_nan_false, sub_spec. intros Ha Hb Hfin.
  apply SFsub_number; auto. now apply double_is_infinity_false.
Qed.

(** Subtracting a larger number gives nothing above zero (and not NaN). *)
Lemma double_sub_lt (a b : float) :
  (0 <=? a) = true -> (0 <=? b) = true -> (a <? b) = true ->
  (0 <? a - b) = false /\ is_nan (a - b) = false.
Proof.
  rewrite !double_leb_0_nonneg, ltb_spec. intros Ha Hb Hlt.
  pose proof (SFsub_lt_nonpos _ _ (Prim2SF_valid a) (Prim2SF_valid b) Ha Hb Hlt) as H.
  rewrite <- sub_spec in H. split; [now apply double_ltb_0_nonpos|].
  apply double_is_nan_false. intros E. rewrite E in H. exact H.
Qed.

Lemma double_eqb_refl (x : float) : is_nan x = false -> (x =? x) = true.
Proof. unfold is_nan. now destruct (x =? x). Qed.

Lemma double_eqb_sym (a b : float) : (a =? b) = (b =? a).
Proof.
  rewrite !eqb_spec. unfold SFeqb. rewrite (SFcompare_antisym (Prim2SF b) (Prim2SF a)).
  now destruct (SFcompare (Prim2SF b) (Prim2SF a)) as [[]|].
Qed.

Lemma double_leb_not_ltb (a b : float) : (a <=? b) = true -> (b <? a) = false.
Proof.
  rewrite leb_spec, ltb_spec. unfold SFleb, SFltb.
  rewrite (SFcompare_antisym (Prim2SF a) (Prim2SF b)).
  now destruct (SFcompare (Prim2SF a) (Prim2SF b)) as [[]|].
Qed.

Lemma double_leb_number (a b : float) : (a <=? b) = true -> is_nan b = false.
Proof.
  rewrite leb_spec, double_is_nan_false. unfold SFleb. intros H E. rewrite E in H.
  now destruct (Prim2SF a).
Qed.

End DoubleOps.

(** ** Quantity arithmetic *)

(** [Math.max(0, x)] is at least 0 when [x] is a number, and is 0 when
    [x] is not above 0. *)
Lemma Math_max_0_nonneg (x : float) :
  is_nan x = false -> (0 <=? JS.Math_max 0 x)%float = true.
Proof.
  intros Hx. unfold JS.Math_max. change (is_nan 0) with false. cbv iota. rewrite Hx.
  destruct (0 <? x)%float eqn:E; [now apply double_ltb_leb|].
  change (get_sign 0) with false. now destruct (x <? 0)%float.
Qed.

Lemma Math_max_0_nonpos (x : float) :
  is_nan x = false -> (0 <? x)%float = false -> JS.Math_max 0 x = 0%float.
Proof.
  intros Hx Hle. unfold JS.Math_max. change (is_nan 0) with false. cbv iota.
  rewrite Hx, Hle. change (get_sign 0) with false. now destruct (x <? 0)%float.
Qed.

Lemma validate_quantity_nonneg (p : Product.t) :
  Product.validate p = [] -> (0 <=? Product.quantity p)%float = true.
Proof.
  unfold Product.validate. rewrite collect_nil. intros H.
  specialize (H (Product.validateQuantity (Product.quantity p))).
  unfold Product.validateQuantity, check, min0 in H.
  destruct (0 <=? Product.quantity p)%float; [reflexivity|].
  discriminate H. simpl. tauto.
Qed.

Lemma validate_setQuantity (q : float) (p : Product.t) :
  Product.validate p = [] -> (0 <=? q)%float = true ->
  Product.validate (Product.setQuantity q p) = [].
Proof.
  unfold Product.validate. rewrite !collect_nil. intros H Hq o Ho.
  simpl in Ho.
  assert (Hnew : Product.validateQuantity q = None).
  { unfold Product.validateQuantity, check, min0. now rewrite Hq. }
  repeat (destruct Ho as [Ho|Ho]; [first [congruence | apply H; simpl; tauto]|]).
  destruct Ho.
Qed.

(** The quantity of the switch is at least 0: for operands at least 0,
    the amount finite. *)
Lemma newQuantity_nonneg (operation : string) (current quantity : float) :
  (0 <=? current)%float = true -> (0 <=? quantity)%float = true ->
  is_infinity quantity = false ->
  (0 <=? newQuantity operation current quantity)%float = true.
Proof.
  intros Hc Hq Hfinite. unfold newQuantity.
  destruct (operation =? "add"); [now apply double_add_nonneg|].
  destruct (operation =? "subtract"); [|assumption].
  apply Math_max_0_nonneg. now apply double_sub_number.
Qed.

(** What [save()] writes back after [product.quantity = q]: the document
    is written when the value differs ([!==]) from the stored one. *)
Lemma saved_quantity (t : Z) (q : float) (p : Product.t) :
  is_nan q = false ->
  (Product.quantity
     (if negb (q =? Product.quantity p)%float
      then Product.setUpdatedAt t (Product.setQuantity q p) else p) =? q)%float = true.
Proof.
  intros Hq. destruct (q =? Product.quantity p)%float eqn:E; simpl.
  - now rewrite double_eqb_sym.
  - now apply double_eqb_refl.
Qed.

Lemma saved_id (t : Z) (q : float) (p : Product.t) :
  Product._id
    (if negb (q =? Product.quantity p)%float
     then Product.setUpdatedAt t (Product.setQuantity q p) else p) = Product._id p.
Proof. destruct (negb _); reflexivity. Qed.

(** C2 (amended). For a stored product that the caller owns and that
    passes the schema's validators, and for a finite amount that is at
    least 0, [updateQuantity] answers 200 and stores a quantity that is
    equal ([===]) to: the double-precision sum of the old quantity and the
    amount under operation add; the amount under operation set;
    [Math.max(0, old - amount)], the difference in double precision, under
    operation subtract. Subtracting more than the current quantity stores
    0, and the stored quantity is never below 0. *)
Theorem adjustQuantity_sets_quantity
    (env : Env) (user : User.t) (oid : ObjectId) (db : DB) (product : Product.t)
    (amount : float) (operation : option string) :
  findOne (hasProductId oid) (products db) = Some product ->
  Product.createdBy product = User._id user ->
  Product.validate product = [] ->
  (0 <=? amount)%float = true ->
  is_infinity amount = false ->
  exists saved : Product.t,
    updateQuantity env user (ValidId oid) (QuantityBody.mk (Some amount) operation) db
    = (withProducts (updateOne (hasProductId oid) (fun _ => saved) (products db)) db,
       Sent 200 (JProduct None "Product quantity updated successfully" (Plain saved)))
    /\ findOne (hasProductId oid)
         (products (fst (updateQuantity env user (ValidId oid)
                           (QuantityBody.mk (Some amount) operation) db)))
       = Some saved
    /\ (operation = Some "add" ->
        (Product.quantity saved =? Product.quantity product + amount)%float = true)
    /\ (operation = Some "set" -> (Product.quantity saved =? amount)%float = true)
    /\ (operation = Some "subtract" ->
        (Product.quantity saved =? JS.Math_max 0 (Product.quantity product - amount))%float
        = true
        /\ ((Product.quantity product <? amount)%float = true ->
            (Product.quantity saved =? 0)%float = true))
    /\ (0 <=? Product.quantity saved)%float = true.
Proof.
  intros Hfind Howner Hvalid Hamount Hfinite.
  pose proof (validate_quantity_nonneg _ Hvalid) as Hold.
  set (q := newQuantity (withDefault operation "set") (Product.quantity product) amount).
  assert (Hq : (0 <=? q)%float = true) by (now apply newQuantity_nonneg).
  assert (Hnumber : is_nan q = false) by (now apply (double_leb_number 0 q)).
  set (saved := if negb (q =? Product.quantity product)%float
                then Product.setUpdatedAt (now env) (Product.setQuantity q product)
                else product).
  assert (Hrun :
    updateQuantity env user (ValidId oid) (QuantityBody.mk (Some amount) operation) db
    = (withProducts (updateOne (hasProductId oid) (fun _ => saved) (products db)) db,
       Sent 200 (JProduct None "Product quantity updated successfully" (Plain saved)))).
  { unfold updateQuantity. cbn [QuantityBody.quantity QuantityBody.operation].
    rewrite (double_leb_not_ltb _ _ Hamount).
    rewrite Hfind, Howner, N.eqb_refl. cbn [negb].
    fold q. rewrite (validate_setQuantity q product Hvalid Hq). reflexivity. }
  assert (Hsaved : (Product.quantity saved =? q)%float = true)
    by (now apply saved_quantity).
  exists saved. split; [exact Hrun|]. split.
  { rewrite Hrun. cbn [fst withProducts products].
    rewrite (findOne_updateOne oid oid saved product _ Hfind).
    - now rewrite N.eqb_refl.
    - unfold saved. rewrite saved_id.
      apply findOne_Some in Hfind. now apply hasProductId_true. }
  split; [|split; [|split]].
  - intros ->. exact Hsaved.
  - intros ->. exact Hsaved.
  - intros ->. split; [exact Hsaved|].
    intros Hlt. destruct (double_sub_lt _ _ Hold Hamount Hlt) as [Hle Hnan].
    unfold q, newQuantity in Hsaved. cbn [withDefault] in Hsaved.
    change ("subtract" =? "add") with false in Hsaved.
    change ("subtract" =? "subtract") with true in Hsaved. cbv iota in Hsaved.
    now rewrite (Math_max_0_nonpos _ Hnan Hle) in Hsaved.
  - unfold saved. now destruct (negb (q =? Product.quantity product)%float).
Qed.

(** C2, witness: alice subtracts 15 from her 10 laptops; 0 are left. *)
Lemma adjustQuantity_sets_quantity_witness :
  exists saved,
    findOne (hasProductId 10%N)
      (products (fst (updateQuantity (Example.env 500 12%N) Example.aliceUser (ValidId 10%N)
                        (QuantityBody.mk (Some 15%float) (Some "subtract")) Example.withLaptop)))
    = Some saved
    /\ (Product.quantity saved =? 0)%float = true.
Proof.
  destruct (adjustQuantity_sets_quantity (Example.env 500 12%N) Example.aliceUser 10%N
              Example.withLaptop Example.laptop 15%float (Some "subtract"))
    as [saved [_ [Hstored [_ [_ [Hsubtract _]]]]]]; try reflexivity.
  exists saved. split; [exact Hstored|].
  destruct (Hsubtract eq_refl) as [_ Hzero]. apply Hzero. reflexivity.
Defined.

(** C2 as stated fails for the sum: quantities are JavaScript numbers,
    and [product.quantity + quantity] is rounded to double precision. Alice
    has set the quantity of her laptop to 2^53 = 9007199254740992 (the
    route's validators accept it, and 2^53 is a double). She adds 1: the
    request is answered 200, and the stored quantity is still the double
    that stands for 2^53, which is not 2^53 plus 1. *)
Lemma adjustQuantity_add_is_rounded :
  option_map Product.quantity (findOne (hasProductId 10%N) (products Example.manyLaptops))
  = Some 9007199254740992%float
  /\ (exists old amount : Q,
        Double.exact (Prim2SF 9007199254740992) = Some old
        /\ Double.exact (Prim2SF 1) = Some amount
        /\ (old == 9007199254740992 # 1)%Q /\ (amount == 1)%Q
        /\ ~ (old == old + amount)%Q)
  /\ statusOf
       (snd (api Demo.platform (Example.env 600 13%N)
               (Products Example.aliceToken
                  (PatchQuantity (ValidId 10%N) (QuantityBody.mk (Some 1%float) (Some "add"))))
               Example.manyLaptops))
     = Some 200%Z
  /\ option_map Product.quantity
       (findOne (hasProductId 10%N)
          (products
             (fst (api Demo.platform (Example.env 600 13%N)
                     (Products Example.aliceToken
                        (PatchQuantity (ValidId 10%N)
                           (QuantityBody.mk (Some 1%float) (Some "add"))))
                     Example.manyLaptops))))
     = Some 9007199254740992%float
  /\ updateQuantity (Example.env 600 13%N) Example.aliceUser (ValidId 10%N)
       (QuantityBody.mk (Some 1%float) (Some "add")) Example.manyLaptops
     = (Example.manyLaptops,
        Sent 200 (JProduct None "Product quantity updated successfully"
                    (Plain (Product.setUpdatedAt 500
                              (Product.setQuantity 9007199254740992 Example.laptop))))).
Proof.
  split; [vm_compute; reflexivity|].
  split; [|repeat split; vm_compute; reflexivity].
  eexists; eexists.
  split; [vm_compute; reflexivity|]. split; [vm_compute; reflexivity|].
  split; [reflexivity|]. split; [reflexivity|].
  intros H. vm_compute in H. discriminate H.
Qed.

(** The validators are a real condition of C2: where the stored quantity
    is below 0 (an update operator such as [$inc], which update validators
    do not check, can leave that), adding an amount that keeps it below 0
    is refused by [save()] and answered 500. *)
Example adjustQuantity_needs_valid_product :
  statusOf
    (snd (updateQuantity (Example.env 600 13%N) Example.aliceUser (ValidId 10%N)
            (QuantityBody.mk (Some 5%float) (Some "add"))
            (withProducts [Product.setQuantity (-90) Example.laptop] Example.twoUsers)))
  = Some 500%Z.
Proof. vm_compute. reflexivity. Qed.

(** ** Existence before ownership *)

Lemma owner_mismatch (a b : ObjectId) : a <> b -> negb (a =? b)%N = true.
Proof. intros H. apply negb_true_iff, N.eqb_neq, H. Qed.

Lemma owner_mismatch_inv (a b : ObjectId) : negb (a =? b)%N = true -> a <> b.
Proof. intros H. apply N.eqb_neq, negb_true_iff, H. Qed.

(** A 403 of [getProduct] comes from an id that exists, under another owner. *)
Lemma getProduct_403 (user : User.t) (id : IdParam) (db : DB) :
  statusOf (snd (getProduct user id db)) = Some 403%Z ->
  exists oid product,
    id = ValidId oid
    /\ findOne (hasProductId oid) (products db) = Some product
    /\ Product.createdBy product <> User._id user.
Proof.
  unfold getProduct. intros H.
  destruct id as [oid|raw]; [|discriminate H].
  destruct (findOne (hasProductId oid) (products db)) as [product|] eqn:Hp; [|discriminate H].
  destruct (findOne (hasUserId (Product.createdBy product)) (users db)) as [owner|] eqn:Ho;
    [|discriminate H].
  destruct (negb (User._id owner =? User._id user)%N) eqn:E; [|discriminate H].
  exists oid, product. repeat split; auto.
  apply findOne_Some in Ho. destruct Ho as [_ Ho]. apply hasUserId_true in Ho.
  rewrite <- Ho. now apply owner_mismatch_inv.
Qed.

Lemma updateProduct_403 (env : Env) (user : User.t) (id : IdParam) (body : ProductBody.t)
    (db : DB) :
  statusOf (snd (updateProduct env user id body db)) = Some 403%Z ->
  exists oid product,
    id = ValidId oid
    /\ findOne (hasProductId oid) (products db) = Some product
    /\ Product.createdBy product <> User._id user.
Proof.
  unfold updateProduct. intros H.
  destruct id as [oid|raw]; [|discriminate H].
  destruct (findOne (hasProductId oid) (products db)) as [product|] eqn:Hp; [|discriminate H].
  destruct (negb (Product.createdBy product =? User._id user)%N) eqn:E.
  - exists oid, product. repeat split; auto. now apply owner_mismatch_inv.
  - exfalso. destruct (ProductBody.validateUpdate (ProductBody.cast body)).
    + destruct (skuTaken oid (ProductBody.sku (ProductBody.cast body)) db); discriminate H.
    + discriminate H.
Qed.

Lemma deleteProduct_403 (env : Env) (user : User.t) (id : IdParam) (db : DB) :
  statusOf (snd (deleteProduct env user id db)) = Some 403%Z ->
  exists oid product,
    id = ValidId oid
    /\ findOne (hasProductId oid) (products db) = Some product
    /\ Product.createdBy product <> User._id user.
Proof.
  unfold deleteProduct. intros H.
  destruct id as [oid|raw]; [|discriminate H].
  destruct (findOne (hasProductId oid) (products db)) as [product|] eqn:Hp; [|discriminate H].
  destruct (negb (Product.createdBy product =? User._id user)%N) eqn:E; [|discriminate H].
  exists oid, product. repeat split; auto. now apply owner_mismatch_inv.
Qed.

Lemma updateQuantity_403 (env : Env) (user : User.t) (id : IdParam) (body : QuantityBody.t)
    (db : DB) :
  statusOf (snd (updateQuantity env user id body db)) = Some 403%Z ->
  exists oid product,
    id = ValidId oid
    /\ findOne (hasProductId oid) (products db) = Some product
    /\ Product.createdBy product <> User._id user.
Proof.
  unfold updateQuantity. intros H.
  destruct (QuantityBody.quantity body) as [quantity|]; [|discriminate H].
  destruct (quantity <? 0)%float; [discriminate H|].
  destruct id as [oid|raw]; [|discriminate H].
  destruct (findOne (hasProductId oid) (products db)) as [product|] eqn:Hp; [|discriminate H].
  destruct (negb (Product.createdBy product =? User._id user)%N) eqn:E.
  - exists oid, product. repeat split; auto. now apply owner_mismatch_inv.
  - exfalso.
    destruct (Product.validate _); discriminate H.
Qed.

(** C1 (amended). For every caller and every well-formed product id:
    when no product has the id, [getProduct], [updateProduct] and
    [deleteProduct] answer 404, and so does [updateQuantity] for an amount
    that is not below 0; when the product exists under another owner they
    answer 403 ([getProduct] once the owner's record is found for the
    populated [createdBy]); the store is unchanged in both cases; a 403
    of any of the four is only ever given for an id that exists; and for
    an amount below 0 [updateQuantity] answers 400 whatever the id. *)
Theorem existence_checked_before_ownership
    (env : Env) (user : User.t) (oid : ObjectId) (db : DB) :
  (findOne (hasProductId oid) (products db) = None ->
     getProduct user (ValidId oid) db = (db, notFound)
     /\ (forall body, updateProduct env user (ValidId oid) body db = (db, notFound))
     /\ deleteProduct env user (ValidId oid) db = (db, notFound)
     /\ (forall amount operation, (amount <? 0)%float = false ->
           updateQuantity env user (ValidId oid) (QuantityBody.mk (Some amount) operation) db
           = (db, notFound)))
  /\ (forall product,
        findOne (hasProductId oid) (products db) = Some product ->
        Product.createdBy product <> User._id user ->
        (forall owner,
            findOne (hasUserId (Product.createdBy product)) (users db) = Some owner ->
            getProduct user (ValidId oid) db
            = (db, accessDenied "You can only access your own products"))
        /\ (forall body,
               updateProduct env user (ValidId oid) body db
               = (db, accessDenied "You can only update your own products"))
        /\ deleteProduct env user (ValidId oid) db
           = (db, accessDenied "You can only delete your own products")
        /\ (forall amount operation, (amount <? 0)%float = false ->
              updateQuantity env user (ValidId oid) (QuantityBody.mk (Some amount) operation) db
              = (db, accessDenied "You can only update quantity for your own products")))
  /\ (forall id body quantityBody,
        statusOf (snd (getProduct user id db)) = Some 403%Z
        \/ statusOf (snd (updateProduct env user id body db)) = Some 403%Z
        \/ statusOf (snd (deleteProduct env user id db)) = Some 403%Z
        \/ statusOf (snd (updateQuantity env user id quantityBody db)) = Some 403%Z ->
        exists oid' product,
          id = ValidId oid'
          /\ findOne (hasProductId oid') (products db) = Some product
          /\ Product.createdBy product <> User._id user)
  /\ (forall id amount operation,
        (amount <? 0)%float = true ->
        updateQuantity env user id (QuantityBody.mk (Some amount) operation) db
        = (db, invalidQuantity)).
Proof.
  split; [|split; [|split]].
  - intros Hnone. repeat split.
    + unfold getProduct. now rewrite Hnone.
    + intros body. unfold updateProduct. now rewrite Hnone.
    + unfold deleteProduct. now rewrite Hnone.
    + intros amount operation Hamount. unfold updateQuantity.
      cbn [QuantityBody.quantity QuantityBody.operation].
      rewrite Hamount. now rewrite Hnone.
  - intros product Hfind Hother. pose proof (owner_mismatch _ _ Hother) as Hneg.
    repeat split.
    + intros owner Howner. unfold getProduct. rewrite Hfind, Howner.
      apply findOne_Some in Howner. destruct Howner as [_ Hid].
      apply hasUserId_true in Hid. rewrite Hid, Hneg. reflexivity.
    + intros body. unfold updateProduct. now rewrite Hfind, Hneg.
    + unfold deleteProduct. now rewrite Hfind, Hneg.
    + intros amount operation Hamount. unfold updateQuantity.
      cbn [QuantityBody.quantity QuantityBody.operation].
      rewrite Hamount. now rewrite Hfind, Hneg.
  - intros id body quantityBody [H|[H|[H|H]]].
    + now apply getProduct_403.
    + now apply (updateProduct_403 env user id body).
    + now apply (deleteProduct_403 env).
    + now apply (updateQuantity_403 env user id quantityBody).
  - intros id amount operation Hamount. unfold updateQuantity.
    cbn [QuantityBody.quantity QuantityBody.operation]. now rewrite Hamount.
Qed.

(** C1, witness: bob asks for alice's laptop (id 10, which exists: 403)
    and for id 99 (which does not: 404). *)
Lemma existence_checked_before_ownership_witness :
  getProduct Example.bobUser (ValidId 10%N) Example.withLaptop
  = (Example.withLaptop, accessDenied "You can only access your own products")
  /\ getProduct Example.bobUser (ValidId 99%N) Example.withLaptop
     = (Example.withLaptop, notFound).
Proof.
  split.
  - destruct (existence_checked_before_ownership (Example.env 500 12%N) Example.bobUser
                10%N Example.withLaptop) as [_ [H _]].
    destruct (H Example.laptop) as [Hget _]; [reflexivity|discriminate|].
    apply (Hget (User.mk 1%N "alice" "alice@example.com" (Some "salt$Password123")
                   "user" true 100 100)).
    reflexivity.
  - destruct (existence_checked_before_ownership (Example.env 500 12%N) Example.bobUser
                99%N Example.withLaptop) as [H _].
    destruct H as [Hget _]; [reflexivity|]. exact Hget.
Defined.

(** C1 as stated fails for [updateQuantity]: with a negative amount the
    handler answers 400 before it looks the product up, whether the id
    exists (99 does not) or belongs to someone else (10 is alice's); on the
    route, the validator chain rejects the body before the handler runs.
    It also fails for [getProduct] on a product whose [createdBy] no
    longer refers to a user (an owner's PUT can leave that): the product
    exists and is not bob's, and bob gets 500, the handler having failed
    on the populated null. *)
Lemma existence_then_ownership_exceptions :
  option_map Product.createdBy (findOne (hasProductId 10%N) (products Example.ownerUnknown))
  = Some 77%N
  /\ getProduct Example.bobUser (ValidId 10%N) Example.ownerUnknown
     = (Example.ownerUnknown,
        Sent 500 (JError "Failed to get product"
                    (Some "Cannot read properties of null (reading '_id')")))
  /\ findOne (hasProductId 99%N) (products Example.withLaptop) = None
  /\ updateQuantity (Example.env 500 12%N) Example.bobUser (ValidId 99%N)
       (QuantityBody.mk (Some (-1)%float) (Some "add")) Example.withLaptop
     = (Example.withLaptop, invalidQuantity)
  /\ statusOf invalidQuantity = Some 400%Z
  /\ updateQuantity (Example.env 500 12%N) Example.bobUser (ValidId 10%N)
       (QuantityBody.mk (Some (-1)%float) (Some "add")) Example.withLaptop
     = (Example.withLaptop, invalidQuantity)
  /\ api Demo.platform (Example.env 500 12%N)
       (Products Example.bobToken
          (PatchQuantity (ValidId 99%N) (QuantityBody.mk (Some (-1)%float) (Some "add"))))
       Example.withLaptop
     = (Example.withLaptop, Threw (ValidationError "Quantity must be a non-negative number")).
Proof. repeat split; vm_compute; reflexivity. Qed.

(** ** Authentication *)

Lemma findOne_absent {A : Type} (f : A -> bool) (l : list A) :
  (forall x, In x l -> f x = false) -> findOne f l = None.
Proof.
  unfold findOne. induction l as [|y l IH]; simpl; [reflexivity|].
  intros H. rewrite (H y (or_introl eq_refl)). apply IH. intros x Hx. apply H. now right.
Qed.

Lemma findOne_present {A : Type} (f : A -> bool) (l : list A) (x : A) :
  In x l -> f x = true -> exists y, findOne f l = Some y.
Proof.
  unfold findOne. induction l as [|z l IH]; simpl; [intros []|].
  intros [->|Hx] Hf.
  - rewrite Hf. now exists x.
  - destruct (f z); [now exists z|]. now apply IH.
Qed.

Lemma existsb_false {A : Type} (f : A -> bool) (l : list A) :
  (forall x, In x l -> f x = false) -> existsb f l = false.
Proof.
  induction l as [|y l IH]; simpl; [reflexivity|].
  intros H. rewrite (H y (or_introl eq_refl)). apply IH. intros x Hx. apply H. now right.
Qed.

Section Authentication.

Variable P : Platform.

(** C3. A login with an email no user holds, and a login with the email
    of an active user but a password that does not match its hash, are
    both refused with an AuthenticationError carrying the same message,
    [Email or password is incorrect]: the two outcomes are equal, and the
    store is unchanged. *)
Theorem login_does_not_reveal_registration
    (env env' : Env) (db : DB) (unknown wrong : Credentials.t) (user : User.t) (hash : string) :
  (forall u, In u (users db) -> User.email u <> Credentials.email unknown) ->
  findOne (fun u => User.email u =? Credentials.email wrong) (users db) = Some user ->
  User.isActive user = true ->
  User.password user = Some hash ->
  bcrypt_compare P (Credentials.password wrong) hash = false ->
  login P env unknown db = (db, Threw (AuthenticationError "Email or password is incorrect"))
  /\ login P env' wrong db = (db, Threw (AuthenticationError "Email or password is incorrect"))
  /\ snd (login P env unknown db) = snd (login P env' wrong db).
Proof.
  intros Hunknown Hfound Hactive Hhash Hcompare.
  assert (H1 : login P env unknown db
               = (db, Threw (AuthenticationError "Email or password is incorrect"))).
  { unfold login. rewrite findOne_absent; [reflexivity|].
    intros u Hu. apply String.eqb_neq. now apply Hunknown. }
  assert (H2 : login P env' wrong db
               = (db, Threw (AuthenticationError "Email or password is incorrect"))).
  { unfold login. now rewrite Hfound, Hactive, Hhash, Hcompare. }
  repeat split; [exact H1|exact H2|now rewrite H1, H2].
Qed.

(** C8. [auth] answers 401 in each of four cases, with four different
    messages: (a) no Authorization header, or nothing left of it once
    [Bearer ] is removed; (b) the token is malformed or wrongly signed;
    (c) the token has expired; (d) the token verifies but its user does
    not exist or is inactive. Otherwise it passes on to the handler with
    the user found, the password left out. *)
Theorem auth_rejects_with_distinct_messages (env : Env) (db : DB) :
  auth P env None db = Sent 401 (JError "Access denied. No token provided." None)
  /\ (forall header,
        bearerToken header = EmptyString ->
        auth P env (Some header) db = Sent 401 (JError "Access denied. No token provided." None))
  /\ (forall header,
        bearerToken header <> EmptyString ->
        (jwt_verify P (bearerToken header) (now env) = JsonWebTokenError ->
         auth P env (Some header) db = Sent 401 (JError "Invalid token." None))
        /\ (jwt_verify P (bearerToken header) (now env) = TokenExpiredError ->
            auth P env (Some header) db = Sent 401 (JError "Token expired." None))
        /\ (forall userId,
               jwt_verify P (bearerToken header) (now env) = JwtPayload (ValidId userId) ->
               (findOne (hasUserId userId) (users db) = None
                \/ exists u, findOne (hasUserId userId) (users db) = Some u
                             /\ User.isActive u = false) ->
               auth P env (Some header) db
               = Sent 401 (JError "Invalid token. User not found or inactive." None))
        /\ (forall userId u,
               jwt_verify P (bearerToken header) (now env) = JwtPayload (ValidId userId) ->
               findOne (hasUserId userId) (users db) = Some u ->
               User.isActive u = true ->
               auth P env (Some header) db = Next (User.withoutPassword u)
               /\ User.password (User.withoutPassword u) = None))
  /\ NoDup [ "Access denied. No token provided."; "Invalid token."; "Token expired.";
             "Invalid token. User not found or inactive." ].
Proof.
  split; [reflexivity|]. split; [|split].
  - intros header Hempty. unfold auth. cbn [option_map]. now rewrite Hempty.
  - intros header Htoken.
    assert (Htruthy : negb (JS.truthy (bearerToken header)) = false).
    { unfold JS.truthy. rewrite negb_involutive. now apply String.eqb_neq. }
    split; [|split; [|split]].
    + intros Hv. unfold auth. cbn [option_map]. now rewrite Htruthy, Hv.
    + intros Hv. unfold auth. cbn [option_map]. now rewrite Htruthy, Hv.
    + intros userId Hv Huser. unfold auth. cbn [option_map]. rewrite Htruthy, Hv.
      destruct Huser as [Hnone|[u [Hsome Hinactive]]].
      * now rewrite Hnone.
      * rewrite Hsome. cbn [option_map User.withoutPassword User.isActive].
        now rewrite Hinactive.
    + intros userId u Hv Hsome Hactive. split; [|reflexivity].
      unfold auth. cbn [option_map]. rewrite Htruthy, Hv, Hsome.
      cbn [option_map User.withoutPassword User.isActive]. now rewrite Hactive.
  - repeat constructor; simpl; intuition discriminate.
Qed.

End Authentication.

(** C3, witness: against the store of alice and bob, a login as nobody
    and a login as alice with a wrong password. *)
Lemma login_does_not_reveal_registration_witness :
  snd (login Demo.platform (Example.env 500 12%N)
         (Credentials.mk "nobody@example.com" "Password123") Example.twoUsers)
  = snd (login Demo.platform (Example.env 600 13%N)
           (Credentials.mk "alice@example.com" "Wrong123") Example.twoUsers).
Proof.
  apply (login_does_not_reveal_registration Demo.platform
           (Example.env 500 12%N) (Example.env 600 13%N) Example.twoUsers
           (Credentials.mk "nobody@example.com" "Password123")
           (Credentials.mk "alice@example.com" "Wrong123")
           (User.mk 1%N "alice" "alice@example.com" (Some "salt$Password123")
              "user" true 100 100)
           "salt$Password123").
  - intros u Hu. vm_compute in Hu. destruct Hu as [<-|[<-|[]]]; discriminate.
  - reflexivity.
  - reflexivity.
  - reflexivity.
  - reflexivity.
Defined.

(** C8, witness: alice's token is accepted and her record attached without
    the password; a token for a user that does not exist is refused. *)
Lemma auth_rejects_with_distinct_messages_witness :
  auth Demo.platform (Example.env 500 12%N) Example.aliceToken Example.twoUsers
  = Next Example.aliceUser
  /\ auth Demo.platform (Example.env 500 12%N) (Some "Bearer jwt.7") Example.twoUsers
     = Sent 401 (JError "Invalid token. User not found or inactive." None).
Proof.
  destruct (auth_rejects_with_distinct_messages Demo.platform (Example.env 500 12%N)
              Example.twoUsers) as [_ [_ [H _]]].
  split.
  - destruct (H "Bearer jwt.1") as [_ [_ [_ Hok]]]; [discriminate|].
    destruct (Hok 1%N (User.mk 1%N "alice" "alice@example.com" (Some "salt$Password123")
                         "user" true 100 100)) as [Hnext _]; [reflexivity..|].
    exact Hnext.
  - destruct (H "Bearer jwt.7") as [_ [_ [Hmissing _]]]; [discriminate|].
    apply (Hmissing 7%N); [reflexivity|]. left. reflexivity.
Defined.

(** ** Registration *)

Section Registration.

Variable P : Platform.

(** The scan visits the users of the collection, each of them. *)
Lemma In_scanOrder (env : Env) (u : User.t) (l : list User.t) :
  In u (scanOrder env l) <-> In u l.
Proof. apply In_insertionSort. Qed.

Lemma findOne_scanOrder_None (env : Env) (f : User.t -> bool) (l : list User.t) :
  findOne f l = None -> findOne f (scanOrder env l) = None.
Proof.
  intros H. apply findOne_absent. intros u Hu.
  apply (findOne_None f l H). now apply (In_scanOrder env).
Qed.

(** X1. When some user already holds the requested email or the
    requested username, [register] throws a ConflictError and stores
    nothing, whichever matching user the lookup returns. The message is
    the email conflict when every user that holds the requested username
    holds the requested email too (so also when nobody holds the
    username), and the username conflict when nobody holds the email. *)
Theorem register_conflict (env : Env) (body : Registration.t) (db : DB) :
  (exists u, In u (users db)
             /\ (User.email u = Registration.email body
                 \/ User.username u = Registration.username body)) ->
  exists message,
    register P env body db = (db, Threw (ConflictError message))
    /\ (message = "Email is already registered" \/ message = "Username is already taken")
    /\ ((forall v, In v (users db) ->
                   User.username v = Registration.username body ->
                   User.email v = Registration.email body) ->
        message = "Email is already registered")
    /\ ((forall v, In v (users db) -> User.email v <> Registration.email body) ->
        message = "Username is already taken").
Proof.
  intros [u [Hin Hheld]].
  destruct (findOne_present
              (fun u => (User.email u =? Registration.email body)
                        || (User.username u =? Registration.username body))
              (scanOrder env (users db)) u) as [existingUser Hfound].
  { now apply In_scanOrder. }
  { apply orb_true_iff. destruct Hheld as [H|H]; [left|right]; now apply String.eqb_eq. }
  exists (if User.email existingUser =? Registration.email body
          then "Email is already registered" else "Username is already taken").
  split; [unfold register; cbv zeta; now rewrite Hfound|].
  apply findOne_Some in Hfound. destruct Hfound as [Hin' Hmatch].
  apply In_scanOrder in Hin'. split; [|split].
  - destruct (User.email existingUser =? Registration.email body); auto.
  - intros Hsame. apply orb_true_iff in Hmatch. destruct Hmatch as [He|Hu].
    + now rewrite He.
    + apply String.eqb_eq in Hu. now rewrite (Hsame _ Hin' Hu), String.eqb_refl.
  - intros Hfree. specialize (Hfree _ Hin'). apply String.eqb_neq in Hfree. now rewrite Hfree.
Qed.

(** C9 (amended). A registration that meets no conflict and passes the
    schema's validators is stored, with status 201, under the role
    [role || 'user']: the supplied role when it is [user] or [admin] (so a
    client that asks for [admin] gets it, and nothing in [register]
    restricts that), and [user] when the role is missing or the empty
    string. Any other role fails the schema's enum validator: nothing is
    stored. *)
Theorem register_stores_requested_role (env : Env) (body : Registration.t) (db : DB) :
  findOne (fun u => (User.email u =? Registration.email body)
                    || (User.username u =? Registration.username body)) (users db) = None ->
  User.validateUsername (User.setUsername (Registration.username body)) = None ->
  User.validateEmail (User.setEmail (Registration.email body)) = None ->
  User.validatePassword (Registration.password body) = None ->
  (forall v, In v (users db) ->
             User._id v <> newId env
             /\ User.username v <> User.setUsername (Registration.username body)
             /\ User.email v <> User.setEmail (Registration.email body)) ->
  (Registration.role body = None \/ Registration.role body = Some EmptyString
   \/ Registration.role body = Some "user" \/ Registration.role body = Some "admin" ->
   exists saved,
     register P env body db
     = (withUsers (users db ++ [saved]) db,
        Sent 201 (JUser "success" "User registered successfully" (User.toJSON saved)
                    (Some (generateToken P env (newId env)))))
     /\ User.role saved = JS.orDefault (Registration.role body) "user"
     /\ (Registration.role body = Some "admin" -> User.role saved = "admin")
     /\ (Registration.role body = Some "user" -> User.role saved = "user")
     /\ (Registration.role body = None \/ Registration.role body = Some EmptyString ->
         User.role saved = "user"))
  /\ (forall r, Registration.role body = Some r ->
                r <> EmptyString -> r <> "user" -> r <> "admin" ->
                exists errors,
                  register P env body db = (db, Threw (MongooseValidationError errors))).
Proof.
  intros Hfree Hname Hmail Hpass Hkeys.
  split.
  - intros Hrole.
    set (role := JS.orDefault (Registration.role body) "user").
    assert (Henum : User.validateRole role = None).
    { unfold role. destruct Hrole as [-> | [-> | [-> | ->]]]; reflexivity. }
    set (saved := User.mk (newId env) (User.setUsername (Registration.username body))
                    (User.setEmail (Registration.email body))
                    (Some (bcrypt_hash P (salt env) (Registration.password body)))
                    role true (now env) (now env)).
    exists saved.
    assert (Htaken : userKeyTaken saved db = false).
    { unfold userKeyTaken. apply existsb_false. intros v Hv.
      destruct (Hkeys v Hv) as [Hid [Hu He]]. cbn.
      apply orb_false_iff. split; [apply orb_false_iff; split|].
      - unfold hasUserId. now apply N.eqb_neq.
      - now apply String.eqb_neq.
      - now apply String.eqb_neq. }
    split; [|split; [reflexivity|split; [|split]]].
    + unfold register. cbv zeta. rewrite (findOne_scanOrder_None env _ _ Hfree).
      unfold User.validate.
      cbn [User.username User.email User.password User.role required collect].
      fold role. rewrite Hname, Hmail, Hpass, Henum.
      cbn [collect User._id User.username User.email User.role User.isActive
           User.createdAt User.updatedAt].
      fold saved. rewrite Htaken. reflexivity.
    + intros Hr. unfold saved, role. cbn [User.role]. now rewrite Hr.
    + intros Hr. unfold saved, role. cbn [User.role]. now rewrite Hr.
    + intros [Hr|Hr]; unfold saved, role; cbn [User.role]; now rewrite Hr.
  - intros r Hr Hempty Huser Hadmin.
    assert (Henum : exists m, User.validateRole r = Some m).
    { unfold User.validateRole, check.
      apply String.eqb_neq in Huser. apply String.eqb_neq in Hadmin.
      rewrite Huser, Hadmin. cbn. eauto. }
    destruct Henum as [m Hm].
    exists [m]. unfold register. cbv zeta. rewrite (findOne_scanOrder_None env _ _ Hfree).
    unfold User.validate.
    cbn [User.username User.email User.password User.role required collect].
    rewrite Hname, Hmail, Hpass, Hr.
    assert (Hor : JS.orDefault (Some r) "user" = r).
    { unfold JS.orDefault, JS.truthy. apply String.eqb_neq in Hempty. now rewrite Hempty. }
    rewrite Hor, Hm. reflexivity.
Qed.

End Registration.

(** X1, witness: carol asks for bob's email; nobody is called carol. *)
Lemma register_conflict_witness :
  exists message,
    register Demo.platform (Example.env 500 12%N)
      (Registration.mk "carol" "bob@example.com" "Password123" None) Example.twoUsers
    = (Example.twoUsers, Threw (ConflictError message))
    /\ message = "Email is already registered".
Proof.
  destruct (register_conflict Demo.platform (Example.env 500 12%N)
              (Registration.mk "carol" "bob@example.com" "Password123" None)
              Example.twoUsers) as [message [Hrun [_ [Hemail _]]]].
  - exists (User.mk 2%N "bob" "bob@example.com" (Some "salt$Password123")
              "user" true 200 200).
    split; [vm_compute; right; left; reflexivity|left; reflexivity].
  - exists message. split; [exact Hrun|].
    apply Hemail. intros v Hv. vm_compute in Hv.
    destruct Hv as [<-|[<-|[]]]; intros Hname; discriminate Hname.
Defined.

(** Where one user holds the requested username and another the requested
    email, the message follows the user the lookup returns: alice in
    insertion order, bob when the server visits him first. *)
Example register_message_follows_the_scan :
  register Demo.platform (Example.env 500 12%N)
    (Registration.mk "alice" "bob@example.com" "Password123" None) Example.twoUsers
  = (Example.twoUsers, Threw (ConflictError "Username is already taken"))
  /\ register Demo.platform
       {| now := 500; newId := 12%N; salt := "salt";
          scanRank := fun id => if (id =? 2)%N then 0%N else 1%N |}
       (Registration.mk "alice" "bob@example.com" "Password123" None) Example.twoUsers
     = (Example.twoUsers, Threw (ConflictError "Email is already registered")).
Proof. split; vm_compute; reflexivity. Qed.

(** C9, witness: carol registers with the role admin. *)
Lemma register_stores_requested_role_witness :
  exists saved,
    register Demo.platform (Example.env 500 12%N)
      (Registration.mk "carol" "carol@example.com" "Password123" (Some "admin"))
      Example.twoUsers
    = (withUsers (users Example.twoUsers ++ [saved]) Example.twoUsers,
       Sent 201 (JUser "success" "User registered successfully" (User.toJSON saved)
                   (Some "jwt.12")))
    /\ User.role saved = "admin".
Proof.
  destruct (register_stores_requested_role Demo.platform (Example.env 500 12%N)
              (Registration.mk "carol" "carol@example.com" "Password123" (Some "admin"))
              Example.twoUsers) as [H _].
  - reflexivity.
  - reflexivity.
  - reflexivity.
  - reflexivity.
  - intros v Hv. vm_compute in Hv.
    destruct Hv as [<-|[<-|[]]]; repeat split; discriminate.
  - destruct H as [saved [Hrun [_ [Hadmin _]]]].
    + right. right. right. reflexivity.
    + exists saved. split; [exact Hrun|]. apply Hadmin. reflexivity.
Defined.

(** C9 as stated fails twice. A request whose role is the empty string
    passes [userRegister] and is stored with the role [user], not with the
    role supplied. A request whose role is [superuser] passes
    [userRegister] as well, and is then refused by the schema: no user is
    stored. *)
Lemma register_role_not_always_verbatim :
  option_map User.role
    (findOne (fun u => User.username u =? "carol")
       (users (fst (api Demo.platform (Example.env 500 12%N)
                      (PostRegister (Example.registration "carol" "carol@example.com"
                                       (Some EmptyString)))
                      Example.twoUsers))))
  = Some "user"
  /\ userRegister Demo.platform
       (Example.registration "carol" "carol@example.com" (Some "superuser"))
     = inr (Registration.mk "carol" "carol@example.com" "Password123" (Some "superuser"))
  /\ api Demo.platform (Example.env 500 12%N)
       (PostRegister (Example.registration "carol" "carol@example.com" (Some "superuser")))
       Example.twoUsers
     = (Example.twoUsers,
        Threw (MongooseValidationError
                 ["`superuser` is not a valid enum value for path `role`."])).
Proof. repeat split; vm_compute; reflexivity. Qed.

(** ** The active flag along a run *)







Lemma handleValidationErrors_inr {A : Type} (errors : list (option string)) (x y : A) :
  handleValidationErrors errors x = inr y -> x = y.
Proof.
  unfold handleValidationErrors. destruct (collect errors); [congruence|discriminate].
Qed.

Section Runs.

Variable P : Platform.

Lemma register_products (env : Env) (body : Registration.t) (db : DB) :
  products (fst (register P env body db)) = products db.
Proof.
  unfold register. cbv zeta.
  destruct (findOne _ (scanOrder env (users db))); [reflexivity|].
  destruct (User.validate _); [|reflexivity].
  destruct (userKeyTaken _ db); reflexivity.
Qed.

Lemma login_store (env : Env) (body : Credentials.t) (db : DB) :
  fst (login P env body db) = db.
Proof.
  unfold login. cbv zeta.
  destruct (findOne _ (users db)) as [user|]; [|reflexivity].
  destruct (negb (User.isActive user)); [reflexivity|].
  destruct (User.password user); [|reflexivity].
  destruct (negb _); reflexivity.
Qed.

Lemma getProducts_store (user : User.t) (query : ListQuery.t) (db : DB) :
  fst (getProducts P user query db) = db.
Proof. unfold getProducts. cbv zeta. destruct (_ <? 0)%Z; reflexivity. Qed.

Lemma getProduct_store (user : User.t) (id : IdParam) (db : DB) :
  fst (getProduct user id db) = db.
Proof.
  unfold getProduct. destruct id; [|reflexivity].
  destruct (findOne _ (products db)); [|reflexivity].
  destruct (findOne _ (users db)); [|reflexivity].
  destruct (negb _); reflexivity.
Qed.



End Runs.




(** ** Unique ids *)

Lemma NoDup_snoc {A : Type} (x : A) (l : list A) : NoDup l -> ~ In x l -> NoDup (l ++ [x]).
Proof.
  induction l as [|y l IH]; simpl; intros Hl Hx.
  - constructor; [intros []|constructor].
  - inversion Hl as [|? ? Hy Hl']; subst. constructor.
    + rewrite in_app_iff. simpl. intros [H|[H|[]]]; [now apply Hy|]. apply Hx. now left.
    + apply IH; [exact Hl'|]. intros H. apply Hx. now right.
Qed.

Lemma toDocument_id (id : ObjectId) (t : Z) (b : ProductBody.t) (doc : Product.t) :
  ProductBody.toDocument id t b = Some doc -> Product._id doc = id.
Proof.
  unfold ProductBody.toDocument.
  destruct (ProductBody.name b), (ProductBody.description b), (ProductBody.sku b),
    (ProductBody.category b), (ProductBody.price b), (ProductBody.cost b),
    (ProductBody.unit b), (ProductBody.createdBy b); try discriminate.
  intros H. injection H as <-. reflexivity.
Qed.

Lemma uniqueIds_updateOne (id : ObjectId) (doc old : Product.t) (db : DB) :
  findOne (hasProductId id) (products db) = Some old ->
  Product._id doc = Product._id old ->
  uniqueIds db ->
  uniqueIds (withProducts (updateOne (hasProductId id) (fun _ => doc) (products db)) db).
Proof.
  intros Hfind Hid H. unfold uniqueIds in *. cbn [withProducts products].
  rewrite updateOne_ids; [exact H|].
  apply findOne_Some in Hfind. destruct Hfind as [_ Hold].
  apply hasProductId_true in Hold. congruence.
Qed.

Lemma createProduct_uniqueIds (env : Env) (user : User.t) (body : ProductBody.t) (db : DB) :
  uniqueIds db -> uniqueIds (fst (createProduct env user body db)).
Proof.
  intros H. unfold createProduct. cbv zeta.
  destruct (ProductBody.validateNew _); [|exact H].
  destruct (ProductBody.toDocument _ _ _) as [doc|] eqn:Hdoc; [|exact H].
  destruct (existsb _ _) eqn:Hex; [exact H|]. cbn [fst].
  unfold uniqueIds in *. cbn [withProducts products]. rewrite map_app. cbn [map].
  apply NoDup_snoc; [exact H|].
  rewrite in_map_iff. intros [q [Hq Hin]].
  assert (Hfalse : existsb
                     (fun q => hasProductId (newId env) q || (Product.sku q =? Product.sku doc))
                     (products db) = true).
  { apply existsb_exists. exists q. split; [exact Hin|].
    apply orb_true_iff. left. apply hasProductId_true.
    rewrite Hq. now apply toDocument_id in Hdoc. }
  congruence.
Qed.

Lemma updateProduct_uniqueIds (env : Env) (user : User.t) (id : IdParam) (body : ProductBody.t)
    (db : DB) :
  uniqueIds db -> uniqueIds (fst (updateProduct env user id body db)).
Proof.
  intros H. unfold updateProduct.
  destruct id as [id'|raw]; [|exact H].
  destruct (findOne (hasProductId id') (products db)) as [old|] eqn:Hfind; [|exact H].
  destruct (negb _); [exact H|]. cbv zeta.
  destruct (ProductBody.validateUpdate _); [|exact H].
  destruct (skuTaken _ _ _); [exact H|]. cbn [fst].
  now apply (uniqueIds_updateOne id' _ old).
Qed.

Lemma deleteProduct_uniqueIds (env : Env) (user : User.t) (id : IdParam) (db : DB) :
  uniqueIds db -> uniqueIds (fst (deleteProduct env user id db)).
Proof.
  intros H. unfold deleteProduct.
  destruct id as [id'|raw]; [|exact H].
  destruct (findOne (hasProductId id') (products db)) as [old|] eqn:Hfind; [|exact H].
  destruct (negb _); [exact H|]. cbv zeta. cbn [fst].
  now apply (uniqueIds_updateOne id' _ old).
Qed.

Lemma updateQuantity_uniqueIds (env : Env) (user : User.t) (id : IdParam)
    (body : QuantityBody.t) (db : DB) :
  uniqueIds db -> uniqueIds (fst (updateQuantity env user id body db)).
Proof.
  intros H. unfold updateQuantity. cbv zeta.
  destruct (QuantityBody.quantity body) as [quantity|]; [|exact H].
  destruct (quantity <? 0)%float; [exact H|].
  destruct id as [id'|raw]; [|exact H].
  destruct (findOne (hasProductId id') (products db)) as [old|] eqn:Hfind; [|exact H].
  destruct (negb (Product.createdBy old =? User._id user)%N); [exact H|].
  destruct (Product.validate _); [|exact H]. cbn [fst].
  apply (uniqueIds_updateOne id' _ old); [exact Hfind| |exact H].
  destruct (negb (_ =? _)%float); reflexivity.
Qed.

(** With unique ids, the document found under an id is the only one with it. *)
Lemma uniqueIds_found (oid : ObjectId) (found p : Product.t) (db : DB) :
  uniqueIds db ->
  findOne (hasProductId oid) (products db) = Some found ->
  In p (products db) -> Product._id p = oid -> p = found.
Proof.
  unfold uniqueIds, findOne. induction (products db) as [|x l IH]; simpl; [intros _ _ []|].
  intros Hnd Hfind Hin Hp. inversion Hnd as [|? ? Hx Hl]; subst.
  destruct (hasProductId (Product._id p) x) eqn:E.
  - injection Hfind as <-. destruct Hin as [->|Hin]; [reflexivity|].
    exfalso. apply Hx. apply hasProductId_true in E. rewrite E.
    now apply in_map.
  - destruct Hin as [->|Hin].
    + unfold hasProductId in E. now rewrite N.eqb_refl in E.
    + now apply IH.
Qed.

(** ** Listing *)







Section Listing.

Variable P : Platform.


Lemma api_uniqueIds (env : Env) (request : Request) (db : DB) :
  uniqueIds db -> uniqueIds (fst (api P env request db)).
Proof.
  intros H. destruct request as [body|body|authorization r]; cbn [api].
  - unfold validated. destruct (userRegister P body); [exact H|].
    unfold uniqueIds. now rewrite register_products.
  - unfold validated. destruct (userLogin P body); [exact H|]. now rewrite login_store.
  - destruct (auth P env authorization db) as [| |user]; [exact H|exact H|].
    destruct r as [body|query| |id|id body|id|id body]; cbn [productRoutes].
    + unfold validated. destruct (productCreate P body); [exact H|].
      now apply createProduct_uniqueIds.
    + now rewrite getProducts_store.
    + exact H.
    + now rewrite getProduct_store.
    + unfold validated. destruct (productUpdate P body); [exact H|].
      now apply updateProduct_uniqueIds.
    + now apply deleteProduct_uniqueIds.
    + unfold validated. destruct (quantityUpdate body); [exact H|].
      now apply updateQuantity_uniqueIds.
Qed.

Lemma run_uniqueIds (trace : list (Env * Request)) (db : DB) :
  uniqueIds db -> uniqueIds (run P trace db).
Proof.
  revert db. induction trace as [|[env request] trace IH]; intros db H; [exact H|].
  cbn [run]. apply IH. now apply api_uniqueIds.
Qed.

(** The two conditions every filter object starts from. *)
Lemma matchesFilter_owner_active (user : User.t) (query : ListQuery.t) (p : Product.t) :
  matchesFilter P (buildFilter user query) p = true ->
  Product.createdBy p = User._id user /\ Product.isActive p = true.
Proof.
  unfold matchesFilter, buildFilter. cbn [Filter.isActive Filter.createdBy].
  intros H. do 5 (apply andb_true_iff in H; destruct H as [H _]).
  apply andb_true_iff in H. destruct H as [Hactive Howner].
  split; [now apply N.eqb_eq|now apply Bool.eqb_prop].
Qed.


(** What a 200 of [getProducts] lists: documents of the store that match
    the filter object. *)
Lemma getProducts_lists_matches (user : User.t) (query : ListQuery.t) (db : DB)
    (message : string) (views : list ProductJson) (pagination : Pagination.t) :
  snd (getProducts P user query db) = Sent 200 (JProducts message views pagination) ->
  forall v, In v views ->
            In (document v) (products db)
            /\ matchesFilter P (buildFilter user query) (document v) = true.
Proof.
  unfold getProducts. cbv zeta. destruct (_ <? 0)%Z; [discriminate|].
  cbn [snd json]. intros H v Hv. injection H as _ <- _.
  apply in_map_iff in Hv. destruct Hv as [p [<- Hp]]. cbn [populate document].
  apply In_limitDocs, In_skipDocs, In_sortProducts, filter_In in Hp. exact Hp.
Qed.


End Listing.



(** ** Lookup by id *)

Section Lookup.

Variable P : Platform.

(** The user [auth] passes on is a stored user, found under its own id. *)
Lemma auth_Next (env : Env) (authorization : option string) (db : DB) (user : User.t) :
  auth P env authorization db = Next user ->
  exists u, findOne (hasUserId (User._id user)) (users db) = Some u
            /\ user = User.withoutPassword u.
Proof.
  unfold auth. destruct authorization as [header|]; cbn [option_map]; [|discriminate].
  destruct (negb (JS.truthy (bearerToken header))); [discriminate|].
  destruct (jwt_verify P (bearerToken header) (now env)) as [[userId|raw]| | |];
    try discriminate.
  destruct (findOne (hasUserId userId) (users db)) as [u|] eqn:Hu;
    cbn [option_map]; [|discriminate].
  destruct (negb (User.isActive (User.withoutPassword u))); [discriminate|].
  intros H. injection H as <-. exists u. split; [|reflexivity].
  cbn [User.withoutPassword User._id].
  pose proof (findOne_Some _ _ _ Hu) as [_ Hid]. apply hasUserId_true in Hid.
  now rewrite Hid.
Qed.

(** C10. [GET /api/products/:id] does not look at the active flag: for an
    inactive product, its authenticated owner gets status 200 and the
    record (with [createdBy] populated), while no list result of any
    caller contains a product with that id. *)
Theorem getById_returns_inactive_product
    (env : Env) (authorization : option string) (user : User.t) (oid : ObjectId)
    (product : Product.t) (db : DB) :
  auth P env authorization db = Next user ->
  findOne (hasProductId oid) (products db) = Some product ->
  Product.createdBy product = User._id user ->
  Product.isActive product = false ->
  uniqueIds db ->
  api P env (Products authorization (GetProductById (ValidId oid))) db
  = (db, Sent 200 (JProduct None "Product retrieved successfully"
                     (Populated product
                        (Some (UserRef.mk (User._id user) (User.username user)
                                 (User.email user))))))
  /\ (forall caller query message views pagination,
         snd (getProducts P caller query db) = Sent 200 (JProducts message views pagination) ->
         forall v, In v views -> Product._id (document v) <> oid).
Proof.
  intros Hauth Hfind Howner Hinactive Hunique. split.
  - cbn [api]. rewrite Hauth. cbn [productRoutes]. unfold getProduct.
    rewrite Hfind, Howner.
    destruct (auth_Next _ _ _ _ Hauth) as [u [Hu ->]]. rewrite Hu.
    cbn [User.withoutPassword User._id User.username User.email].
    rewrite N.eqb_refl. reflexivity.
  - intros caller query message views pagination Hlist v Hv Hid.
    destruct (getProducts_lists_matches P _ _ _ _ _ _ Hlist v Hv) as [Hin Hmatch].
    destruct (matchesFilter_owner_active P _ _ _ Hmatch) as [_ Hactive].
    rewrite (uniqueIds_found oid product (document v) db Hunique Hfind Hin Hid) in Hactive.
    congruence.
Qed.

End Lookup.

(** C10, witness: alice fetches her deleted laptop by id. *)
Lemma getById_returns_inactive_product_witness :
  api Demo.platform (Example.env 900 20%N)
    (Products Example.aliceToken (GetProductById (ValidId 10%N))) Example.laptopDeleted
  = (Example.laptopDeleted,
     Sent 200 (JProduct None "Product retrieved successfully"
                 (Populated Example.deletedLaptop (Some Example.aliceRef)))).
Proof.
  apply (getById_returns_inactive_product Demo.platform (Example.env 900 20%N)
           Example.aliceToken Example.aliceUser 10%N Example.deletedLaptop
           Example.laptopDeleted).
  - reflexivity.
  - reflexivity.
  - reflexivity.
  - reflexivity.
  - vm_compute. repeat constructor. intros [].
Defined.

(** ** The README example *)

(** With every required path in the body, the example holds: one product,
    total value 9999.9. *)
Example full_body_create_then_stats :
  option_map (fun stats => (Stats.totalProducts stats,
                            (Stats.totalValue stats =? 9999.9)%float))
    (statsOf (snd (api Demo.platform (Example.env 400 11%N)
                     (Products Example.aliceToken GetStats) Example.withLaptop)))
  = Some (1%nat, true).
Proof. vm_compute. reflexivity. Qed.

(** C6 (the code does not do what the example says). The body
    [{name: Laptop, price: 999.99, quantity: 10}] passes [productCreate],
    and [createProduct] then fails in [save()]: the schema requires
    description, sku, category, cost and unit. Nothing is stored, on any
    platform, for any caller and store; for alice, the statistics that
    follow count no product and no value. *)
Theorem basic_body_fails_schema_validation
    (P : Platform) (env : Env) (user : User.t) (db : DB) :
  (exists errors,
      productRoutes P env user (PostProduct Example.laptopBasic) db
      = (db, Threw (MongooseValidationError errors))
      /\ incl [ "Product description is required"; "SKU is required";
                "Category is required"; "Cost is required"; "Unit is required" ] errors)
  /\ api Demo.platform (Example.env 300 10%N)
       (Products Example.aliceToken (PostProduct Example.laptopBasic)) Example.twoUsers
     = (Example.twoUsers,
        Threw (MongooseValidationError
                 [ "Product description is required"; "SKU is required";
                   "Category is required"; "Cost is required"; "Unit is required" ]))
  /\ api Demo.platform (Example.env 400 11%N) (Products Example.aliceToken GetStats)
       Example.twoUsers
     = (Example.twoUsers,
        Sent 200 (JStats "Inventory statistics retrieved successfully"
                    (Stats.mk 0 0 0 0 0) [])).
Proof.
  split; [|split; vm_compute; reflexivity].
  assert (Hpass : productCreate P Example.laptopBasic
                  = inr (ProductBody.setName (Some (escape P "Laptop")) Example.laptopBasic))
    by reflexivity.
  cbn [productRoutes]. rewrite Hpass. unfold validated, createProduct. cbv zeta.
  unfold ProductBody.validateNew.
  cbn [ProductBody.cast ProductBody.setCreatedBy ProductBody.setName Example.laptopBasic
       ProductBody.name ProductBody.description ProductBody.sku ProductBody.category
       ProductBody.price ProductBody.cost ProductBody.quantity ProductBody.minQuantity
       ProductBody.maxQuantity ProductBody.unit option_map required optional].
  destruct (Product.validateName (JS.trim (escape P "Laptop"))) as [m|];
    cbn; eexists; (split; [reflexivity|]);
    intros x Hx; simpl in *; tauto.
Qed.

(** ** Stored products are valid

    The requests of the model keep the schema's validators satisfied:
    every product of a store they reach from the empty one passes them,
    and ids are unique in it. (An update operator such as [$inc], which is
    outside the model, is not checked by update validators.) *)

Lemma Forall_updateOne {A : Type} (Q : A -> Prop) (f : A -> bool) (doc : A) (l : list A) :
  Forall Q l -> Q doc -> Forall Q (updateOne f (fun _ => doc) l).
Proof.
  intros Hl Hdoc. induction Hl as [|x l Hx Hl IH]; simpl; [constructor|].
  destruct (f x); constructor; auto.
Qed.

Lemma required_None {A : Type} (message : string) (v : option A) (validators : A -> option string) :
  required message v validators = None -> exists x, v = Some x /\ validators x = None.
Proof. destruct v as [x|]; [eauto|discriminate]. Qed.

Lemma optional_orKeep {A : Type} (v : option A) (old : A) (validators : A -> option string) :
  optional v validators = None -> validators old = None ->
  validators (ProductBody.orKeep v old) = None.
Proof. destruct v; auto. Qed.

Lemma optional_orKeepOpt {A : Type} (v old : option A) (validators : A -> option string) :
  optional v validators = None -> optional old validators = None ->
  optional (ProductBody.orKeepOpt v old) validators = None.
Proof. destruct v; auto. Qed.

Lemma toDocument_valid (id : ObjectId) (t : Z) (b : ProductBody.t) (doc : Product.t) :
  ProductBody.validateNew b = [] ->
  ProductBody.toDocument id t b = Some doc ->
  Product.validate doc = [].
Proof.
  unfold ProductBody.validateNew, ProductBody.toDocument. rewrite collect_nil. intros H.
  destruct (ProductBody.name b) as [n|]; [|discriminate].
  destruct (ProductBody.description b) as [d|]; [|discriminate].
  destruct (ProductBody.sku b) as [s|]; [|discriminate].
  destruct (ProductBody.category b) as [c|]; [|discriminate].
  destruct (ProductBody.price b) as [pr|]; [|discriminate].
  destruct (ProductBody.cost b) as [co|]; [|discriminate].
  destruct (ProductBody.unit b) as [u|]; [|discriminate].
  destruct (ProductBody.createdBy b) as [owner|]; [|discriminate].
  intros Hdoc. injection Hdoc as <-.
  unfold Product.validate. apply collect_nil. cbn [required] in H.
  cbn [Product.name Product.description Product.sku Product.category Product.price
       Product.cost Product.quantity Product.minQuantity Product.maxQuantity Product.unit].
  intros o Ho. simpl in Ho.
  destruct Ho as [<-|[<-|[<-|[<-|[<-|[<-|[<-|[<-|[<-|[<-|[]]]]]]]]]]];
    try (apply H; simpl; tauto).
  - destruct (ProductBody.quantity b) as [q|]; [|reflexivity].
    apply H. simpl. tauto.
  - destruct (ProductBody.minQuantity b) as [q|]; [|reflexivity].
    apply H. simpl. tauto.
Qed.

Lemma applyTo_valid (t : Z) (b : ProductBody.t) (p : Product.t) :
  ProductBody.validateUpdate b = [] ->
  Product.validate p = [] ->
  Product.validate (ProductBody.applyTo t b p) = [].
Proof.
  unfold ProductBody.validateUpdate, Product.validate. rewrite !collect_nil.
  intros Hb Hp o Ho. simpl in Ho.
  destruct Ho as [<-|[<-|[<-|[<-|[<-|[<-|[<-|[<-|[<-|[<-|[]]]]]]]]]]];
    first [ apply optional_orKeep; [apply Hb|apply Hp]; simpl; tauto
          | apply optional_orKeepOpt; [apply Hb|apply Hp]; simpl; tauto ].
Qed.

Lemma createProduct_validStore (env : Env) (user : User.t) (body : ProductBody.t) (db : DB) :
  validStore db -> validStore (fst (createProduct env user body db)).
Proof.
  intros H. unfold createProduct. cbv zeta.
  destruct (ProductBody.validateNew _) eqn:Hvalid; [|exact H].
  destruct (ProductBody.toDocument _ _ _) as [doc|] eqn:Hdoc; [|exact H].
  destruct (existsb _ _); [exact H|]. cbn [fst].
  unfold validStore in *. cbn [withProducts products].
  apply Forall_app. split; [exact H|]. constructor; [|constructor].
  exact (toDocument_valid _ _ _ _ Hvalid Hdoc).
Qed.

Lemma updateProduct_validStore (env : Env) (user : User.t) (id : IdParam)
    (body : ProductBody.t) (db : DB) :
  validStore db -> validStore (fst (updateProduct env user id body db)).
Proof.
  intros H. unfold updateProduct.
  destruct id as [id'|raw]; [|exact H].
  destruct (findOne (hasProductId id') (products db)) as [old|] eqn:Hfind; [|exact H].
  destruct (negb _); [exact H|]. cbv zeta.
  destruct (ProductBody.validateUpdate _) eqn:Hvalid; [|exact H].
  destruct (skuTaken _ _ _); [exact H|]. cbn [fst].
  unfold validStore in *. cbn [withProducts products].
  apply Forall_updateOne; [exact H|].
  apply applyTo_valid; [exact Hvalid|].
  apply findOne_Some in Hfind. destruct Hfind as [Hin _].
  now apply (proj1 (Forall_forall _ _) H).
Qed.

Lemma deleteProduct_validStore (env : Env) (user : User.t) (id : IdParam) (db : DB) :
  validStore db -> validStore (fst (deleteProduct env user id db)).
Proof.
  intros H. unfold deleteProduct.
  destruct id as [id'|raw]; [|exact H].
  destruct (findOne (hasProductId id') (products db)) as [old|] eqn:Hfind; [|exact H].
  destruct (negb _); [exact H|]. cbv zeta. cbn [fst].
  unfold validStore in *. cbn [withProducts products].
  apply Forall_updateOne; [exact H|].
  apply findOne_Some in Hfind. destruct Hfind as [Hin _].
  exact (proj1 (Forall_forall _ _) H old Hin).
Qed.

Lemma updateQuantity_validStore (env : Env) (user : User.t) (id : IdParam)
    (body : QuantityBody.t) (db : DB) :
  validStore db -> validStore (fst (updateQuantity env user id body db)).
Proof.
  intros H. unfold updateQuantity. cbv zeta.
  destruct (QuantityBody.quantity body) as [quantity|]; [|exact H].
  destruct (quantity <? 0)%float; [exact H|].
  destruct id as [id'|raw]; [|exact H].
  destruct (findOne (hasProductId id') (products db)) as [old|] eqn:Hfind; [|exact H].
  destruct (negb (Product.createdBy old =? User._id user)%N); [exact H|].
  destruct (Product.validate _) eqn:Hvalid; [|exact H]. cbn [fst].
  unfold validStore in *. cbn [withProducts products].
  apply Forall_updateOne; [exact H|].
  destruct (negb (_ =? _)%float); [exact Hvalid|].
  apply findOne_Some in Hfind. destruct Hfind as [Hin _].
  exact (proj1 (Forall_forall _ _) H old Hin).
Qed.

Lemma run_validStore (P : Platform) (trace : list (Env * Request)) (db : DB) :
  validStore db -> validStore (run P trace db).
Proof.
  revert db. induction trace as [|[env request] trace IH]; intros db H; [exact H|].
  cbn [run]. apply IH.
  destruct request as [body|body|authorization r]; cbn [api].
  - unfold validated. destruct (userRegister P body); [exact H|].
    unfold validStore. now rewrite register_products.
  - unfold validated. destruct (userLogin P body); [exact H|]. now rewrite login_store.
  - destruct (auth P env authorization db) as [| |user]; [exact H|exact H|].
    destruct r as [body|query| |id|id body|id|id body]; cbn [productRoutes].
    + unfold validated. destruct (productCreate P body); [exact H|].
      now apply createProduct_validStore.
    + now rewrite getProducts_store.
    + exact H.
    + now rewrite getProduct_store.
    + unfold validated. destruct (productUpdate P body); [exact H|].
      now apply updateProduct_validStore.
    + now apply deleteProduct_validStore.
    + unfold validated. destruct (quantityUpdate body); [exact H|].
      now apply updateQuantity_validStore.
Qed.

(** Both invariants hold of every store reached from the empty one. *)
Corollary reachable_store_invariants (P : Platform) (trace : list (Env * Request)) :
  validStore (run P trace emptyDB) /\ uniqueIds (run P trace emptyDB).
Proof.
  split.
  - apply run_validStore. constructor.
  - apply run_uniqueIds. constructor.
Qed.
